(** * Arduino-Python3 Command API: the host side of the serial command protocol

    A shallow embedding of [Arduino/arduino.py]: the command codec
    ([build_cmd_str], [rd]), the transport helper ([write_and_flush]), the
    version handshake of [Arduino.__init__], and the pin, servo,
    software-serial and EEPROM operations, followed by the properties of the
    specification that concern them.

    Python objects are modelled as follows.
    - Integers are [Z]; text is [string] (the ASCII range is modelled, which
      covers every literal of the source and every frame it builds).
    - The serial stream [sr] is external: it is a record holding what the
      device will answer and which writes, flushes and reads will raise.
    - A method is a function on the board record that returns an [outcome]
      (normal return, raised exception, or a loop that never ends) together
      with the board as the call leaves it.  The helper objects
      ([Servos], [SoftwareSerial], [EEPROM]) alias the stream of the board,
      so their fields live in the same record. *)

From Stdlib Require Import ZArith String Ascii List DecimalString DecimalPos.
From stdpp Require Import gmap strings.

Open Scope Z_scope.
Open Scope string_scope.

(* stdpp blocks the unfolding of string concatenation; frames are built by
   concatenation, so simplification has to go through it here. *)
#[local] Arguments String.append !s1 s2 : simpl nomatch.

(** ** Python values and [str()] *)

Inductive pyval :=
  | PyNone
  | PyBool (b : bool)
  | PyInt (z : Z)
  | PyStr (s : string).

(** [str(z)] for an integer: decimal digits, a leading [-] when negative. *)
Definition str_of_Z (z : Z) : string := NilEmpty.string_of_int (Z.to_int z).

Definition py_str (v : pyval) : string :=
  match v with
  | PyNone => "None"
  | PyBool true => "True"
  | PyBool false => "False"
  | PyInt z => str_of_Z z
  | PyStr s => s
  end.

(** [sep.join(parts)] *)
Fixpoint str_join (sep : string) (parts : list string) : string :=
  match parts with
  | [] => ""
  | [p] => p
  | p :: rest => p +:+ sep +:+ str_join sep rest
  end.

(** ** Command codec *)

Definition libraryVersion : string := "V0.6".

(** [build_cmd_str(cmd, args=None)].  [args] is [None] when the caller
    leaves it out; an empty sequence is falsy as well. *)
Definition build_cmd_str (cmd : pyval) (args : option (list pyval)) : string :=
  let cmd := py_str cmd in
  let args :=
    match args with
    | Some [] | None => ""
    | Some l => str_join "%" (map py_str l)
    end in
  "@" +:+ cmd +:+ "%" +:+ args +:+ "$!".

(** ** Text helpers *)

Definition is_lower (c : ascii) : bool :=
  let n := nat_of_ascii c in ((97 <=? n) && (n <=? 122))%nat.

Definition is_digit (c : ascii) : bool :=
  let n := nat_of_ascii c in ((48 <=? n) && (n <=? 57))%nat.

(** The whitespace that [int()] and [float()] skip around an ASCII literal. *)
Definition is_space (c : ascii) : bool :=
  let n := nat_of_ascii c in (((9 <=? n) && (n <=? 13)) || (n =? 32))%nat.

Definition upper_ascii (c : ascii) : ascii :=
  if is_lower c then ascii_of_nat (nat_of_ascii c - 32) else c.

Definition lower_ascii (c : ascii) : ascii :=
  let n := nat_of_ascii c in
  if ((65 <=? n) && (n <=? 90))%nat then ascii_of_nat (n + 32) else c.

Fixpoint str_map (f : ascii -> ascii) (s : string) : string :=
  match s with
  | EmptyString => EmptyString
  | String c r => String (f c) (str_map f r)
  end.

(** [s.upper()] and [s.lower()] *)
Definition upper : string -> string := str_map upper_ascii.
Definition lower : string -> string := str_map lower_ascii.

(** [s.replace("\r\n", "")] *)
Fixpoint strip_crlf (s : string) : string :=
  match s with
  | EmptyString => EmptyString
  | String c r =>
      match r with
      | String d r' =>
          if (Ascii.eqb c "013" && Ascii.eqb d "010")%bool then strip_crlf r'
          else String c (strip_crlf r)
      | EmptyString => s
      end
  end.

(** [x in (a, b, ...)] for strings *)
Definition str_in (x : string) (l : list string) : bool := existsb (String.eqb x) l.

(** Truth value of a string: non-empty. *)
Definition nonempty (s : string) : bool :=
  match s with EmptyString => false | _ => true end.

(** [s.isdigit()] *)
Fixpoint all_digits (s : string) : bool :=
  match s with
  | EmptyString => true
  | String c r => is_digit c && all_digits r
  end.

Definition isdigit (s : string) : bool := nonempty s && all_digits s.

(** ** Parsing numbers: [int(s)] and [float(s)] on text *)

Fixpoint lstrip (s : string) : string :=
  match s with
  | String c r => if is_space c then lstrip r else s
  | EmptyString => EmptyString
  end.

Definition strip (s : string) : string :=
  String.rev (lstrip (String.rev (lstrip s))).

(** Digit grouping: an underscore is accepted only between two digits and is
    then dropped.  [prev] is the character just read. *)
Fixpoint drop_underscores (prev : option ascii) (s : string) : option string :=
  let after_digit := match prev with Some p => is_digit p | None => false end in
  let after_underscore := match prev with Some p => Ascii.eqb p "_" | None => false end in
  match s with
  | EmptyString => if after_underscore then None else Some EmptyString
  | String c r =>
      if Ascii.eqb c "_" then
        if after_digit then drop_underscores (Some c) r else None
      else if after_underscore && negb (is_digit c) then None
      else option_map (String c) (drop_underscores (Some c) r)
  end.

Definition digit_val (c : ascii) : Z := Z.of_nat (nat_of_ascii c - 48).

Fixpoint digits_val (acc : Z) (s : string) : Z :=
  match s with
  | EmptyString => acc
  | String c r => digits_val (10 * acc + digit_val c) r
  end.

(** Splits an optional sign off; [true] stands for [-]. *)
Definition split_sign (s : string) : bool * string :=
  match s with
  | String "-" r => (true, r)
  | String "+" r => (false, r)
  | _ => (false, s)
  end.

(** [int(s)]: [None] when Python raises [ValueError]. *)
Definition py_int (s : string) : option Z :=
  match drop_underscores None (strip s) with
  | None => None
  | Some t =>
      let '(neg, ds) := split_sign t in
      if isdigit ds then Some (if neg then - digits_val 0 ds else digits_val 0 ds)
      else None
  end.

(** A float is represented by the number its literal denotes; rounding to
    binary64 is not modelled. *)
Inductive pyfloat :=
  | FNum (num : Z) (den : positive)
  | FInf (neg : bool)
  | FNan.

(** The longest prefix of digits, and what follows it. *)
Fixpoint span_digits (s : string) : string * string :=
  match s with
  | String c r =>
      if is_digit c then let '(d, rest) := span_digits r in (String c d, rest)
      else (EmptyString, s)
  | EmptyString => (EmptyString, EmptyString)
  end.

(** The exponent part: empty, or [e]/[E], an optional sign and digits up to
    the end of the text. *)
Definition parse_exponent (s : string) : option Z :=
  match s with
  | EmptyString => Some 0
  | String c r =>
      if Ascii.eqb (lower_ascii c) "e" then
        let '(neg, ds) := split_sign r in
        if isdigit ds then Some (if neg then - digits_val 0 ds else digits_val 0 ds)
        else None
      else None
  end.

Definition scale10 (m e : Z) : pyfloat :=
  if (0 <=? e)%Z then FNum (m * 10 ^ e) 1
  else FNum m (Z.to_pos (10 ^ (- e))).

(** [float(s)]: [None] when Python raises [ValueError]. *)
Definition py_float (s : string) : option pyfloat :=
  match drop_underscores None (strip s) with
  | None => None
  | Some t =>
      let '(neg, body) := split_sign t in
      let word := lower body in
      if String.eqb word "inf" || String.eqb word "infinity" then Some (FInf neg)
      else if String.eqb word "nan" then Some FNan
      else
        let '(ip, r1) := span_digits body in
        let '(fp, r2) :=
          match r1 with
          | String "." r => span_digits r
          | _ => (EmptyString, r1)
          end in
        if nonempty ip || nonempty fp then
          match parse_exponent r2 with
          | Some e =>
              let m := digits_val 0 (ip +:+ fp) in
              Some (scale10 (if neg then - m else m) (e - Z.of_nat (String.length fp)))
          | None => None
          end
        else None
  end.

(** What [pulseIn] and [pulseIn_set] return: a float, or the integer [-1]. *)
Inductive pynum :=
  | NInt (z : Z)
  | NFloat (f : pyfloat).

(** ** Exceptions and outcomes *)

Inductive exn :=
  | KeyError (key : pyval)
  | ValueError (msg : string)
  | TypeError (msg : string)
  | UnboundLocalError (name : string)
  | UnicodeDecodeError
  | SerialException.

Inductive outcome (A : Type) :=
  | Return (a : A)
  | Raise (e : exn)
  | Diverge.
Arguments Return {A} a.
Arguments Raise {A} e.
Arguments Diverge {A}.

(** ** The serial stream and the state of the host *)

(** What [readline()] hands back: text, or bytes that are not valid UTF-8. *)
Inductive bytes :=
  | BText (s : string)
  | BBinary.

Inductive rx_event :=
  | RxBytes (b : bytes)     (* readline() returns these bytes *)
  | RxError (e : exn).      (* readline() raises *)

(** The stream as the program sees it.  [rx] lists the outcomes of the
    coming [readline()] calls; once it is used up every read times out and
    returns an empty line.  [wr_faults] and [fl_faults] list the outcomes of
    the coming [write()] and [flush()] calls ([Some e]: the call raises [e]);
    once used up, calls succeed.  [tx] is what the stream has accepted. *)
Record Serial := mkSerial {
  rx : list rx_event;
  wr_faults : list (option exn);
  fl_faults : list (option exn);
  tx : list string
}.

(** The stream, standard output, and the attributes of the [Arduino] object
    and of its helpers: [pinModeDic] (Arduino), [servo_pos] (Servos),
    [connected] (SoftwareSerial).  All helpers hold the same stream. *)
Record Host := mkHost {
  sr : Serial;
  console : list string;
  pinModeDic : gmap Z string;
  servo_pos : gmap Z Z;
  connected : bool
}.

Definition set_sr (f : Serial -> Serial) (h : Host) : Host :=
  mkHost (f (sr h)) (console h) (pinModeDic h) (servo_pos h) (connected h).
Definition set_console (f : list string -> list string) (h : Host) : Host :=
  mkHost (sr h) (f (console h)) (pinModeDic h) (servo_pos h) (connected h).
Definition set_pinModeDic (f : gmap Z string -> gmap Z string) (h : Host) : Host :=
  mkHost (sr h) (console h) (f (pinModeDic h)) (servo_pos h) (connected h).
Definition set_servo_pos (f : gmap Z Z -> gmap Z Z) (h : Host) : Host :=
  mkHost (sr h) (console h) (pinModeDic h) (f (servo_pos h)) (connected h).
Definition set_connected (c : bool) (h : Host) : Host :=
  mkHost (sr h) (console h) (pinModeDic h) (servo_pos h) c.

(** ** The monad of a call: state passing with exceptions *)

Definition M (A : Type) : Type := Host -> outcome A * Host.

Definition ret {A} (a : A) : M A := fun h => (Return a, h).
Definition raise {A} (e : exn) : M A := fun h => (Raise e, h).
Definition diverge {A} : M A := fun h => (Diverge, h).

Definition bind {A B} (m : M A) (k : A -> M B) : M B :=
  fun h =>
    match m h with
    | (Return a, h') => k a h'
    | (Raise e, h') => (Raise e, h')
    | (Diverge, h') => (Diverge, h')
    end.

(** [try: body / except: handler] (the handler sees every exception) *)
Definition try_except {A} (body : M A) (handler : exn -> M A) : M A :=
  fun h =>
    match body h with
    | (Raise e, h') => handler e h'
    | r => r
    end.

Declare Scope py_scope.
Delimit Scope py_scope with py.
Notation "x <- m ;; k" := (bind m (fun x => k))
  (at level 100, m at next level, right associativity) : py_scope.
Notation "m ;; k" := (bind m (fun _ => k))
  (at level 100, right associativity) : py_scope.
Open Scope py_scope.

Definition modify (f : Host -> Host) : M unit := fun h => (Return tt, f h).
Definition get {A} (f : Host -> A) : M A := fun h => (Return (f h), h).

(** [print(line)] *)
Definition print (line : string) : M unit :=
  modify (set_console (fun out => (out ++ [line])%list)).

(** ** Stream primitives *)

Definition sr_write (data : string) : M unit :=
  fun h =>
    let s := sr h in
    match wr_faults s with
    | Some e :: w =>
        (Raise e, set_sr (fun _ => mkSerial (rx s) w (fl_faults s) (tx s)) h)
    | None :: w =>
        (Return tt, set_sr (fun _ => mkSerial (rx s) w (fl_faults s) (tx s ++ [data])%list) h)
    | [] =>
        (Return tt, set_sr (fun _ => mkSerial (rx s) [] (fl_faults s) (tx s ++ [data])%list) h)
    end.

Definition sr_flush : M unit :=
  fun h =>
    let s := sr h in
    match fl_faults s with
    | Some e :: f => (Raise e, set_sr (fun _ => mkSerial (rx s) (wr_faults s) f (tx s)) h)
    | None :: f => (Return tt, set_sr (fun _ => mkSerial (rx s) (wr_faults s) f (tx s)) h)
    | [] => (Return tt, h)
    end.

Definition sr_readline : M bytes :=
  fun h =>
    let s := sr h in
    match rx s with
    | RxBytes b :: r =>
        (Return b, set_sr (fun _ => mkSerial r (wr_faults s) (fl_faults s) (tx s)) h)
    | RxError e :: r =>
        (Raise e, set_sr (fun _ => mkSerial r (wr_faults s) (fl_faults s) (tx s)) h)
    | [] => (Return (BText ""), h)
    end.

(** [b.decode("utf-8")] *)
Definition decode_utf8 (b : bytes) : M string :=
  match b with
  | BText s => ret s
  | BBinary => raise UnicodeDecodeError
  end.

(** ** Module-level functions *)

(** [rd(sr)] *)
Definition rd : M string :=
  line <- sr_readline ;;
  t <- decode_utf8 line ;;
  ret (strip_crlf t).

(** [write_and_flush(sr, data, raise_error=False)] *)
Definition write_and_flush (data : string) (raise_error : bool) : M unit :=
  try_except
    (sr_write data ;; sr_flush)
    (fun e =>
       if raise_error then
         print ("data = " +:+ data) ;; raise e
       else ret tt).

(** Binding of the keyword arguments of a call
    [write_and_flush(sr, data, k1=v1, ...)] to the signature
    [(sr, data, raise_error=False)]. *)
Fixpoint bind_keywords (kw : list (string * bool)) (raise_error : bool) : exn + bool :=
  match kw with
  | [] => inr raise_error
  | (k, v) :: rest =>
      if String.eqb k "raise_error" then bind_keywords rest v
      else if String.eqb k "sr" || String.eqb k "data" then
        inl (TypeError ("write_and_flush() got multiple values for argument '" +:+ k +:+ "'"))
      else
        inl (TypeError ("write_and_flush() got an unexpected keyword argument '" +:+ k +:+ "'"))
  end.

Definition call_write_and_flush (data : string) (kw : list (string * bool)) : M unit :=
  match bind_keywords kw false with
  | inl e => raise e
  | inr raise_error => write_and_flush data raise_error
  end.

(** [get_version(sr)]: [None] when the query could not be written. *)
Definition get_version : M (option string) :=
  let cmd_str := build_cmd_str (PyStr "version") None in
  written <- try_except (sr_write cmd_str ;; sr_flush ;; ret true)
                        (fun _ => ret false) ;;
  if written : bool then
    line <- sr_readline ;;
    t <- decode_utf8 line ;;
    ret (Some (strip_crlf t))
  else ret None.

(** [int(v)] on a value.  The message of the [ValueError] leaves out the
    quoted literal that Python appends. *)
Definition int_of (v : pyval) : M Z :=
  match v with
  | PyInt z => ret z
  | PyBool b => ret (if b then 1 else 0)
  | PyStr t =>
      match py_int t with
      | Some z => ret z
      | None => raise (ValueError "invalid literal for int() with base 10")
      end
  | PyNone => raise (TypeError "int() argument must be a string, a bytes-like object or a real number, not 'NoneType'")
  end.

(** [float(s)] on text, with the same shortened message *)
Definition float_of_str (t : string) : M pyfloat :=
  match py_float t with
  | Some f => ret f
  | None => raise (ValueError "could not convert string to float")
  end.

(** ** class Arduino *)

Module Arduino.

(** [Arduino.__init__(port=<name>)]: the branch taken when no stream is
    passed and a port is named.  The state holds the stream that
    [serial.Serial(port, baud, timeout=timeout)] has just opened. *)
Definition init_port : M unit :=
  sr_readline ;;
  version <- get_version ;;
  (if match version with Some v => negb (String.eqb v libraryVersion) | None => true end then
     let ver :=
       match version with
       | Some (String c _) => String c EmptyString
       | _ => EmptyString                      (* except Exception: ver = '' *)
       end in
     match version with
     | Some v =>
         if String.eqb ver "V" || String.eqb v "version" then
           print "You need to update the version of the Arduino-Python3 library running on your Arduino." ;;
           print ("The Arduino sketch is " +:+ v) ;;
           print ("The Python installation is " +:+ libraryVersion) ;;
           print "Flash the prototype sketch again."
         else ret tt
     | None => ret tt
     end
   else ret tt) ;;
  sr_flush ;;
  modify (fun h => mkHost (sr h) (console h) ∅ ∅ false).

(** [Arduino.__init__(sr=<stream>)]: an open stream is passed in. *)
Definition init_sr : M unit :=
  sr_flush ;;
  modify (fun h => mkHost (sr h) (console h) ∅ ∅ false).

(** [self.pinModeDic[pin]] *)
Definition pinModeDic_get (pin : Z) : M string :=
  fun h =>
    match pinModeDic h !! pin with
    | Some mode => (Return mode, h)
    | None => (Raise (KeyError (PyInt pin)), h)
    end.

Definition version : M (option string) := get_version.

Definition digitalWrite (pin : Z) (val : pyval) : M unit :=
  let val := upper (py_str val) in
  mode <- pinModeDic_get pin ;;
  if negb (String.eqb mode "OUTPUT") then
    raise (ValueError ("pin: " +:+ str_of_Z pin +:+ " not set to OUTPUT"))
  else if str_in val ["HIGH"; "LOW"] then
    let pin_ := if String.eqb val "LOW" then - pin else pin in
    let cmd_str := build_cmd_str (PyStr "dw") (Some [PyInt pin_]) in
    write_and_flush cmd_str false
  else
    raise (ValueError ("val: " +:+ val +:+ " not in ('HIGH', 'LOW')")).

Definition analogWrite (pin : Z) (val : Z) : M unit :=
  mode <- pinModeDic_get pin ;;
  if negb (String.eqb mode "OUTPUT") then
    raise (ValueError ("pin: " +:+ str_of_Z pin +:+ " not set to OUTPUT"))
  else
    let val := if (val >? 255)%Z then 255 else if (val <? 0)%Z then 0 else val in
    let cmd_str := build_cmd_str (PyStr "aw") (Some [PyInt pin; PyInt val]) in
    write_and_flush cmd_str false.

Definition analogRead (pin : Z) : M Z :=
  let cmd_str := build_cmd_str (PyStr "ar") (Some [PyInt pin]) in
  write_and_flush cmd_str false ;;
  try_except
    (t <- rd ;; int_of (PyStr t))
    (fun _ => ret 0).

Definition pinMode (pin : Z) (val : pyval) : M unit :=
  let val := upper (py_str val) in
  if str_in val ["INPUT"; "OUTPUT"; "INPUT_PULLUP"] then
    let pin_ :=
      if String.eqb val "INPUT" then - pin
      else if String.eqb val "INPUT_PULLUP" then -16384 - pin
      else pin in
    modify (set_pinModeDic (insert pin val)) ;;
    let cmd_str := build_cmd_str (PyStr "pm") (Some [PyInt pin_]) in
    write_and_flush cmd_str false
  else
    raise (ValueError ("val: " +:+ val +:+ " not in ('INPUT', 'OUTPUT', 'INPUT_PULLUP')")).

Definition pulseIn (pin : Z) (val : pyval) : M pynum :=
  let val := upper (py_str val) in
  mode <- pinModeDic_get pin ;;
  if negb (String.eqb mode "INPUT") then
    raise (ValueError ("pin: " +:+ str_of_Z pin +:+ " not set to INPUT"))
  else if negb (str_in val ["LOW"; "HIGH"]) then
    raise (ValueError ("val: " +:+ val +:+ " not in ('LOW', 'HIGH')"))
  else
    let pin_ := if String.eqb val "LOW" then - pin else pin in
    let cmd_str := build_cmd_str (PyStr "pi") (Some [PyInt pin_]) in
    write_and_flush cmd_str false ;;
    try_except
      (t <- rd ;; f <- float_of_str t ;; ret (NFloat f))
      (fun _ => ret (NInt (-1))).

(** Reading a local variable of a function body: a name that is assigned
    somewhere in the body is local, and reading it before its first
    assignment raises. *)
Definition load_local (locals : gmap string pyval) (name : string) : M pyval :=
  match locals !! name with
  | Some v => ret v
  | None => raise (UnboundLocalError name)
  end.

(** The loop of [pulseIn_set]: one query and one reading per trial. *)
Fixpoint pulse_trials (n : nat) (cmd_str : string) (durations : list Z) : M (list Z) :=
  match n with
  | O => ret durations
  | S n' =>
      write_and_flush cmd_str false ;;
      response <- rd ;;
      if isdigit response then
        r <- int_of (PyStr response) ;;
        if (r >? 1)%Z then pulse_trials n' cmd_str (durations ++ [r])%list
        else pulse_trials n' cmd_str durations
      else pulse_trials n' cmd_str durations
  end.

Definition pulseIn_set (pin : Z) (val : pyval) (numTrials : Z) : M pynum :=
  let locals : gmap string pyval :=
    {[ "pin" := PyInt pin; "val" := val; "numTrials" := PyInt numTrials ]} in
  let locals := <[ "pin" := PyInt pin ]> locals in
  let val := upper (py_str val) in
  let locals := <[ "val" := PyStr val ]> locals in
  v <- load_local locals "numtrials" ;;          (* numtrials = int(numtrials) *)
  numtrials <- int_of v ;;
  let locals := <[ "numtrials" := PyInt numtrials ]> locals in
  mode <- pinModeDic_get pin ;;
  durations <-
    (if negb (String.eqb mode "OUTPUT") then
       let pin_ := if String.eqb val "LOW" then - pin else pin in
       let cmd_str := build_cmd_str (PyStr "ps") (Some [PyInt pin_]) in
       _ <- load_local locals "numTrials" ;;
       durations <- pulse_trials (Z.to_nat numTrials) cmd_str [] ;;
       ret (Some durations)
     else ret None) ;;
  match durations with
  | None => raise (UnboundLocalError "durations")
  | Some durations =>
      match durations with
      | [] => ret (NInt (-1))                    (* float(None) raises *)
      | _ :: _ =>
          ret (NFloat (FNum (fold_right Z.add 0 durations)
                            (Pos.of_nat (length durations))))
      end
  end.

Definition digitalRead (pin : Z) : M Z :=
  mode <- pinModeDic_get pin ;;
  if negb (String.eqb mode "INPUT") then
    raise (ValueError ("pin: " +:+ str_of_Z pin +:+ " not set to INPUT"))
  else
    let cmd_str := build_cmd_str (PyStr "dr") (Some [PyInt pin]) in
    write_and_flush cmd_str false ;;
    try_except
      (t <- rd ;; int_of (PyStr t))
      (fun _ => ret 0).

Definition shiftOut (dataPin clockPin : Z) (pinOrder : pyval) (value : Z) : M unit :=
  let pinOrder := upper (py_str pinOrder) in
  let valid := ["MSBFIRST"; "LSBFIRST"] in
  dmode <- pinModeDic_get dataPin ;;
  ok <- (if String.eqb dmode "OUTPUT" then
           cmode <- pinModeDic_get clockPin ;;
           ret (String.eqb cmode "OUTPUT" && str_in (upper pinOrder) valid)
         else ret false) ;;
  if ok : bool then
    let value := if (value <? 0)%Z then 0 else if (value >? 255)%Z then 255 else value in
    let cmd_str :=
      build_cmd_str (PyStr "so")
        (Some [PyInt dataPin; PyInt clockPin; PyStr pinOrder; PyInt value]) in
    call_write_and_flush cmd_str [("raise_error", true)]
  else
    dmode <- pinModeDic_get dataPin ;;
    if negb (String.eqb dmode "OUTPUT") then
      raise (ValueError ("pin: " +:+ str_of_Z dataPin +:+ " not initialised to OUTPUT"))
    else
      cmode <- pinModeDic_get clockPin ;;
      if negb (String.eqb cmode "OUTPUT") then
        raise (ValueError ("pin: " +:+ str_of_Z clockPin +:+ " not initialised to OUTPUT"))
      else if negb (str_in (upper pinOrder) valid) then
        raise (ValueError ("pinOrder: " +:+ upper pinOrder +:+ " not in ('MSBFIRST', 'LSBFIRST')"))
      else ret tt.

End Arduino.

(** ** class Servos *)

(** The number of scripted stream events still to come.  Once it is zero
    every write and flush succeeds and every read times out. *)
Definition pending (s : Serial) : nat :=
  (length (rx s) + length (wr_faults s) + length (fl_faults s))%nat.

Module Servos.

(** [self.servo_pos[pin]] *)
Definition servo_pos_get (pin : Z) : M Z :=
  fun h =>
    match servo_pos h !! pin with
    | Some position => (Return position, h)
    | None => (Raise (KeyError (PyInt pin)), h)
    end.

(** The [while True] loop of [attach]: query until the device answers.  The
    loop has no exit of its own; [fuel] bounds the iterations of the model
    and the outcome is [Diverge] when it runs out. *)
Fixpoint attach_loop (fuel : nat) (cmd_str : string) : M string :=
  match fuel with
  | O => diverge
  | S fuel' =>
      call_write_and_flush cmd_str [("raise_error", true)] ;;
      response <- rd ;;
      if nonempty response then ret response
      else attach_loop fuel' cmd_str
  end.

(** [Servos.attach(pin, min=544, max=2400)].  An iteration that does not
    leave the loop uses up a scripted stream event, if there is one left, so
    [pending + 1] iterations decide whether the loop ends
    (see [attach_loop_fuel] and [attach_loop_quiet]). *)
Definition attach (pin : Z) (min max : Z) : M Z :=
  let cmd_str := build_cmd_str (PyStr "sva") (Some [PyInt pin; PyInt min; PyInt max]) in
  fuel <- get (fun h => S (pending (sr h))) ;;
  response <- attach_loop fuel cmd_str ;;
  position <- int_of (PyStr response) ;;
  modify (set_servo_pos (insert pin position)) ;;
  ret 1.

Definition detach (pin : Z) : M unit :=
  position <- servo_pos_get pin ;;
  let cmd_str := build_cmd_str (PyStr "svd") (Some [PyInt position]) in
  write_and_flush cmd_str false ;;
  modify (set_servo_pos (delete pin)).

Definition write (pin : Z) (angle : pyval) : M unit :=
  position <- servo_pos_get pin ;;
  let cmd_str := build_cmd_str (PyStr "svw") (Some [PyInt position; angle]) in
  call_write_and_flush cmd_str [("raise_errors", true)].

Definition writeMicroseconds (pin : Z) (uS : pyval) : M unit :=
  position <- servo_pos_get pin ;;
  let cmd_str := build_cmd_str (PyStr "svwm") (Some [PyInt position; uS]) in
  call_write_and_flush cmd_str [("raise_errors", true)].

Definition read (pin : Z) : M pyval :=
  bound <- get (fun h => bool_decide (is_Some (servo_pos h !! pin))) ;;
  (if bound : bool then ret 1 else attach pin 544 2400) ;;
  position <- servo_pos_get pin ;;
  let cmd_str := build_cmd_str (PyStr "svr") (Some [PyInt position]) in
  write_and_flush cmd_str false ;;
  try_except
    (t <- rd ;; angle <- int_of (PyStr t) ;; ret (PyInt angle))
    (fun _ => ret PyNone).

End Servos.

(** ** class SoftwareSerial *)

Module SoftwareSerial.

Definition begin (p1 p2 baud : Z) : M bool :=
  let cmd_str := build_cmd_str (PyStr "ss") (Some [PyInt p1; PyInt p2; PyInt baud]) in
  write_and_flush cmd_str false ;;
  response <- rd ;;
  if String.eqb response "ss OK" then
    modify (set_connected true) ;; ret true
  else
    modify (set_connected false) ;; ret false.

(** Returns [True], [False], or nothing ([None]) when the device does not
    acknowledge. *)
Definition write (data : pyval) : M pyval :=
  c <- get connected ;;
  if c : bool then
    let cmd_str := build_cmd_str (PyStr "sw") (Some [data]) in
    write_and_flush cmd_str false ;;
    response <- rd ;;
    if String.eqb response "ss OK" then ret (PyBool true) else ret PyNone
  else ret (PyBool false).

Definition read : M pyval :=
  c <- get connected ;;
  if c : bool then
    let cmd_str := build_cmd_str (PyStr "sr") None in
    call_write_and_flush cmd_str [("raise_error", true)] ;;
    response <- rd ;;
    if nonempty response then ret (PyStr response) else ret PyNone
  else ret (PyBool false).

End SoftwareSerial.

(** ** class EEPROM *)

Module EEPROM.

Definition size : M Z :=
  let cmd_str := build_cmd_str (PyStr "sz") None in
  try_except
    (call_write_and_flush cmd_str [("raise_error", true)] ;;
     response <- rd ;;
     int_of (PyStr response))
    (fun _ => ret 0).

Definition write (address : Z) (value : Z) : M unit :=
  let value := if (value >? 255)%Z then 255 else if (value <? 0)%Z then 0 else value in
  let cmd_str := build_cmd_str (PyStr "eewr") (Some [PyInt address; PyInt value]) in
  write_and_flush cmd_str false.

(** Returns the byte, or nothing ([None]) when the response is empty. *)
Definition read (address : Z) : M pyval :=
  let cmd_str := build_cmd_str (PyStr "eer") (Some [PyInt address]) in
  try_except
    (write_and_flush cmd_str false ;;
     response <- rd ;;
     if nonempty response then
       v <- int_of (PyStr response) ;; ret (PyInt v)
     else ret PyNone)
    (fun _ => ret (PyInt 0)).

End EEPROM.

(** ** Streams and hosts used in the statements *)

(** A stream on which nothing is scripted: writes succeed, reads time out. *)
Definition idle : Serial := mkSerial [] [] [] [].

(** A fault-free stream on which the device sends the given lines. *)
Definition answers (lines : list string) : Serial :=
  mkSerial (map (fun l => RxBytes (BText l)) lines) [] [] [].

(** The host before any object exists, holding the open stream [s]. *)
Definition boot (s : Serial) : Host := mkHost s [] ∅ ∅ false.

(** [Arduino(sr=s)] *)
Definition board_on (s : Serial) : Host := snd (Arduino.init_sr (boot s)).

(** The stream takes the next [write()] without raising. *)
Definition accepts (s : Serial) : bool :=
  match wr_faults s with
  | Some _ :: _ => false
  | _ => true
  end.

(** The lines printed when the firmware reports another version. *)
Definition version_warning (v : string) : list string :=
  [ "You need to update the version of the Arduino-Python3 library running on your Arduino.";
    "The Arduino sketch is " +:+ v;
    "The Python installation is " +:+ libraryVersion;
    "Flash the prototype sketch again." ].

(** The test the handshake applies to a response that differs from
    [libraryVersion]: it starts with [V], or it is the text [version]. *)
Definition looks_like_version (v : string) : bool :=
  match v with
  | String "V" _ => true
  | _ => String.eqb v "version"
  end.

(** The line terminator of the device. *)
Definition CRLF : string := String "013" (String "010" EmptyString).

(** The first non-empty answer among the coming reads, as [rd] returns it. *)
Fixpoint first_reply (l : list rx_event) : option string :=
  match l with
  | RxBytes (BText raw) :: r =>
      if nonempty (strip_crlf raw) then Some (strip_crlf raw) else first_reply r
  | _ => None
  end.

(** What the next [rd] returns: the text of the next line without its
    terminator, the empty text on a timeout, nothing when the read raises. *)
Definition next_response (s : Serial) : option string :=
  match rx s with
  | [] => Some EmptyString
  | RxBytes (BText raw) :: _ => Some (strip_crlf raw)
  | _ => None
  end.

(** The value range of a byte-sized argument. *)
Definition clamp_byte (v : Z) : Z := Z.max 0 (Z.min 255 v).

(** ** Further methods of class Arduino *)

(** An argument that is tested with [isinstance(x, list)]. *)
Inductive pyseq :=
  | PyList (items : list pyval)
  | NotAList.

(** The items of the [NOTES] dictionary of [Melody]: note name, frequency. *)
Definition NOTES_items : list (string * Z) :=
  [ ("B0", 31); ("C1", 33); ("CS1", 35); ("D1", 37); ("DS1", 39);
    ("E1", 41); ("F1", 44); ("FS1", 46); ("G1", 49); ("GS1", 52);
    ("A1", 55); ("AS1", 58); ("B1", 62); ("C2", 65); ("CS2", 69);
    ("D2", 73); ("DS2", 78); ("E2", 82); ("F2", 87); ("FS2", 93);
    ("G2", 98); ("GS2", 104); ("A2", 110); ("AS2", 117); ("B2", 123);
    ("C3", 131); ("CS3", 139); ("D3", 147); ("DS3", 156); ("E3", 165);
    ("F3", 175); ("FS3", 185); ("G3", 196); ("GS3", 208); ("A3", 220);
    ("AS3", 233); ("B3", 247); ("C4", 262); ("CS4", 277); ("D4", 294);
    ("DS4", 311); ("E4", 330); ("F4", 349); ("FS4", 370); ("G4", 392);
    ("GS4", 415); ("A4", 440); ("AS4", 466); ("B4", 494); ("C5", 523);
    ("CS5", 554); ("D5", 587); ("DS5", 622); ("E5", 659); ("F5", 698);
    ("FS5", 740); ("G5", 784); ("GS5", 831); ("A5", 880); ("AS5", 932);
    ("B5", 988); ("C6", 1047); ("CS6", 1109); ("D6", 1175); ("DS6", 1245);
    ("E6", 1319); ("F6", 1397); ("FS6", 1480); ("G6", 1568); ("GS6", 1661);
    ("A6", 1760); ("AS6", 1865); ("B6", 1976); ("C7", 2093); ("CS7", 2217);
    ("D7", 2349); ("DS7", 2489); ("E7", 2637); ("F7", 2794); ("FS7", 2960);
    ("G7", 3136); ("GS7", 3322); ("A7", 3520); ("AS7", 3729); ("B7", 3951);
    ("C8", 4186); ("CS8", 4435); ("D8", 4699); ("DS8", 4978) ].

Definition NOTES : gmap string Z := list_to_map NOTES_items.

(** [NOTES.get(key)]: the keys are strings, so any other value is absent. *)
Definition NOTES_get (key : pyval) : pyval :=
  match key with
  | PyStr name =>
      match NOTES !! name with
      | Some frequency => PyInt frequency
      | None => PyNone
      end
  | _ => PyNone
  end.

(** [Arduino.Melody(pin, melody, durations)]: returns nothing ([None]) once
    the tune is sent and [-1] when the arguments do not fit. *)
Definition Melody (pin : Z) (melody durations : pyseq) : M pyval :=
  mode <- Arduino.pinModeDic_get pin ;;
  if negb (String.eqb mode "OUTPUT") then
    raise (ValueError ("pin: " +:+ str_of_Z pin +:+ " not initialised to OUTPUT"))
  else
    match melody, durations with
    | PyList melody, PyList durations =>
        let length_ := Z.of_nat (length melody) in
        let cmd_args := [PyInt length_; PyInt pin] in
        if (length_ =? Z.of_nat (length durations))%Z then
          let cmd_args := (cmd_args ++ map NOTES_get melody)%list in
          let cmd_args := (cmd_args ++ durations)%list in
          let cmd_str := build_cmd_str (PyStr "to") (Some cmd_args) in
          write_and_flush cmd_str false ;;
          let cmd_str := build_cmd_str (PyStr "nto") (Some [PyInt pin]) in
          write_and_flush cmd_str false ;;
          ret PyNone
        else ret (PyInt (-1))
    | _, _ => ret (PyInt (-1))
    end.


(** ** Port discovery *)

(** What a scan leaves behind: the lines printed and the streams it closed. *)
Record Scan := mkScan {
  scan_console : list string;
  scan_closed : list Serial
}.

(** [find_port(baud, timeout)] over the candidate ports in the order the
    platform lists them.  A candidate is the stream that
    [serial.Serial(port, baud, timeout=timeout)] opens, or nothing when the
    call raises [SerialException] or [OSError].  A stream object is truthy,
    so [if sr:] always holds.  Logging calls are left out. *)
Fixpoint find_port (ports : list (option Serial)) (w : Scan)
  : outcome (option Serial) * Scan :=
  match ports with
  | [] => (Return None, w)
  | None :: ports' => find_port ports' w
  | Some s :: ports' =>
      match (sr_readline ;; get_version) (mkHost s (scan_console w) ∅ ∅ false) with
      | (Return version, h) =>
          if match version with
             | Some v => negb (String.eqb v libraryVersion)
             | None => true
             end
          then
            let ver :=
              match version with
              | Some (String c _) => String c EmptyString
              | _ => EmptyString
              end in
            match version with
            | Some v =>
                if String.eqb ver "V" || String.eqb v "version" then
                  let h' :=
                    snd ((print "You need to update the version of the Arduino-Python3 library running on your Arduino." ;;
                          print ("The Arduino sketch is " +:+ v) ;;
                          print ("The Python installation is " +:+ libraryVersion) ;;
                          print "Flash the prototype sketch again.") h) in
                  (Return (Some (sr h')), mkScan (console h') (scan_closed w))
                else
                  find_port ports' (mkScan (console h) (scan_closed w ++ [sr h])%list)
            | None =>
                find_port ports' (mkScan (console h) (scan_closed w ++ [sr h])%list)
            end
          else (Return (Some (sr h)), mkScan (console h) (scan_closed w))
      | (Raise e, h) => (Raise e, mkScan (console h) (scan_closed w))
      | (Diverge, h) => (Diverge, mkScan (console h) (scan_closed w))
      end
  end.

(** [Arduino.__init__()] with neither a stream nor a port: discovery, then
    the common tail of the constructor on the stream found. *)
Definition init_auto (ports : list (option Serial)) (w : Scan)
  : outcome Host * Scan :=
  match find_port ports w with
  | (Return (Some s), w') =>
      match Arduino.init_sr (mkHost s (scan_console w') ∅ ∅ false) with
      | (Return _, h) => (Return h, mkScan (console h) (scan_closed w'))
      | (Raise e, h) => (Raise e, mkScan (console h) (scan_closed w'))
      | (Diverge, h) => (Diverge, mkScan (console h) (scan_closed w'))
      end
  | (Return None, w') => (Raise (ValueError "Could not find port."), w')
  | (Raise e, w') => (Raise e, w')
  | (Diverge, w') => (Diverge, w')
  end.

(** ** Predicates on text used in the statements *)

(** Every character of the text passes the test. *)
Fixpoint str_all (f : ascii -> bool) (s : string) : bool :=
  match s with
  | EmptyString => true
  | String c r => f c && str_all f r
  end.

Definition not_cr (c : ascii) : bool := negb (Ascii.eqb c "013").

(** The characters of a decimal integer text. *)
Definition is_numeric (c : ascii) : bool := is_digit c || Ascii.eqb c "-".

Definition starts_numeric (s : string) : bool :=
  match s with
  | String c _ => is_numeric c
  | EmptyString => false
  end.

(** A read that [rd] turns into the empty text: an empty line. *)
Definition silent (ev : rx_event) : bool :=
  match ev with
  | RxBytes (BText raw) => negb (nonempty (strip_crlf raw))
  | _ => false
  end.

(** The stream a candidate port is left with after the probe of
    [find_port], and the version it reported. *)
Definition probe (s : Serial) : outcome (option string) * Serial :=
  let '(r, h) := (sr_readline ;; get_version) (mkHost s [] ∅ ∅ false) in (r, sr h).

(** The verdict of [find_port] on a reported version: [None] rejects the
    port, [Some true] accepts it with the update notice, [Some false]
    accepts it silently. *)
Definition verdict (version : option string) : option bool :=
  match version with
  | Some v =>
      if String.eqb v libraryVersion then Some false
      else if looks_like_version v then Some true
      else None
  | None => None
  end.

(** A candidate that [find_port] passes over: it does not open, or its probe
    returns a version that is rejected. *)
Definition passed_over (c : option Serial) : bool :=
  match c with
  | None => true
  | Some s =>
      match probe s with
      | (Return v, _) => match verdict v with None => true | Some _ => false end
      | _ => false
      end
  end.

(** The streams closed while passing over candidates. *)
Definition closed_streams (cs : list (option Serial)) : list Serial :=
  omap (fun c => match c with Some s => Some (snd (probe s)) | None => None end) cs.

(** ** Properties *)

Lemma append_assoc (a b c : string) : (a +:+ b) +:+ c = a +:+ (b +:+ c).
Proof. induction a as [|x a IH]; simpl; [reflexivity | f_equal; exact IH]. Qed.

(** Every argument after the first is preceded by one ["%"]. *)
Lemma str_join_cons sep p rest tl :
  str_join sep (p :: rest) +:+ tl =
  p +:+ foldr (fun q acc => sep +:+ q +:+ acc) tl rest.
Proof.
  revert p; induction rest as [|q rest IH]; intros p.
  - reflexivity.
  - change (str_join sep (p :: q :: rest)) with (p +:+ sep +:+ str_join sep (q :: rest)).
    cbn [foldr]. rewrite <- IH. now rewrite !append_assoc.
Qed.

(** C1. For every command name and argument list, [build_cmd_str] yields the
    frame [@<name>%<arg1>%<arg2>...$!]: the arguments are string-converted
    and separated by [%], and the argument segment is empty when there are no
    arguments (or none are passed); in particular
    [build_cmd_str("dw", [13]) = "@dw%13$!"] and
    [build_cmd_str("version") = "@version%$!"]. *)
Theorem build_cmd_str_frame :
  (forall (cmd : pyval) (a : pyval) (rest : list pyval),
      build_cmd_str cmd (Some (a :: rest)) =
      "@" +:+ py_str cmd +:+ "%" +:+ py_str a +:+
      foldr (fun x acc => "%" +:+ py_str x +:+ acc) "$!" rest) /\
  (forall cmd : pyval,
      build_cmd_str cmd (Some []) = "@" +:+ py_str cmd +:+ "%$!" /\
      build_cmd_str cmd None = "@" +:+ py_str cmd +:+ "%$!") /\
  build_cmd_str (PyStr "dw") (Some [PyInt 13]) = "@dw%13$!" /\
  build_cmd_str (PyStr "version") None = "@version%$!".
Proof.
  split; [|split; [|split]]; try reflexivity.
  - intros cmd a rest. cbv beta iota zeta delta [build_cmd_str].
    change (map py_str (a :: rest)) with (py_str a :: map py_str rest).
    rewrite str_join_cons.
    replace (foldr (fun q acc => "%" +:+ q +:+ acc) "$!" (map py_str rest))
      with (foldr (fun x acc => "%" +:+ py_str x +:+ acc) "$!" rest); [reflexivity|].
    induction rest as [|x rest IH]; [reflexivity|].
    cbn [map foldr]. now rewrite IH.
  - intros cmd; split; reflexivity.
Qed.

(** *** write_and_flush *)

Lemma write_and_flush_quiet data h :
  fst (write_and_flush data false h) = Return tt.
Proof.
  unfold write_and_flush, try_except, bind, sr_write, sr_flush.
  destruct (wr_faults (sr h)) as [|[e|] w]; cbn;
    destruct (fl_faults (sr h)) as [|[e'|] f]; reflexivity.
Qed.

Lemma write_and_flush_tx data re h :
  accepts (sr h) = true ->
  tx (sr (snd (write_and_flush data re h))) = (tx (sr h) ++ [data])%list.
Proof.
  unfold accepts, write_and_flush, try_except, bind, sr_write, sr_flush.
  destruct (wr_faults (sr h)) as [|[e|] w]; cbn; try discriminate; intros _;
    destruct (fl_faults (sr h)) as [|[e'|] f]; destruct re; reflexivity.
Qed.

(** Writing touches the stream and, in strict mode, the console: the
    attributes of the objects are left alone. *)
Lemma write_and_flush_attrs data re h :
  let h' := snd (write_and_flush data re h) in
  pinModeDic h' = pinModeDic h /\ servo_pos h' = servo_pos h /\
  connected h' = connected h /\ rx (sr h') = rx (sr h).
Proof.
  unfold write_and_flush, try_except, bind, sr_write, sr_flush.
  destruct (wr_faults (sr h)) as [|[e|] w]; cbn;
    destruct (fl_faults (sr h)) as [|[e'|] f]; destruct re; cbn; auto.
Qed.

Lemma upper_idem s : upper (upper s) = upper s.
Proof.
  induction s as [|c r IH]; [reflexivity|].
  change (String (upper_ascii (upper_ascii c)) (upper (upper r)) =
          String (upper_ascii c) (upper r)).
  rewrite IH. f_equal.
  destruct c as [[] [] [] [] [] [] [] []]; reflexivity.
Qed.

(** C2. Sign encoding: for every pin [p], [pinMode(p, "INPUT")] sends the
    argument [-p], [pinMode(p, "INPUT_PULLUP")] sends [-16384 - p] and
    [pinMode(p, "OUTPUT")] sends [p]; on a pin configured [OUTPUT],
    [digitalWrite(p, "LOW")] sends [-p] and [digitalWrite(p, "HIGH")] sends
    [p].  The frame reaches the stream whenever the stream takes the write. *)
Theorem pin_sign_encoding (p : Z) (h : Host) :
  accepts (sr h) = true ->
  (Arduino.pinMode p (PyStr "INPUT") h =
     write_and_flush ("@pm%" +:+ str_of_Z (- p) +:+ "$!") false
       (set_pinModeDic (insert p "INPUT") h) /\
   tx (sr (snd (Arduino.pinMode p (PyStr "INPUT") h))) =
     (tx (sr h) ++ ["@pm%" +:+ str_of_Z (- p) +:+ "$!"])%list) /\
  (Arduino.pinMode p (PyStr "INPUT_PULLUP") h =
     write_and_flush ("@pm%" +:+ str_of_Z (-16384 - p) +:+ "$!") false
       (set_pinModeDic (insert p "INPUT_PULLUP") h) /\
   tx (sr (snd (Arduino.pinMode p (PyStr "INPUT_PULLUP") h))) =
     (tx (sr h) ++ ["@pm%" +:+ str_of_Z (-16384 - p) +:+ "$!"])%list) /\
  (Arduino.pinMode p (PyStr "OUTPUT") h =
     write_and_flush ("@pm%" +:+ str_of_Z p +:+ "$!") false
       (set_pinModeDic (insert p "OUTPUT") h) /\
   tx (sr (snd (Arduino.pinMode p (PyStr "OUTPUT") h))) =
     (tx (sr h) ++ ["@pm%" +:+ str_of_Z p +:+ "$!"])%list) /\
  (pinModeDic h !! p = Some "OUTPUT" ->
   (Arduino.digitalWrite p (PyStr "LOW") h =
      write_and_flush ("@dw%" +:+ str_of_Z (- p) +:+ "$!") false h /\
    tx (sr (snd (Arduino.digitalWrite p (PyStr "LOW") h))) =
      (tx (sr h) ++ ["@dw%" +:+ str_of_Z (- p) +:+ "$!"])%list) /\
   (Arduino.digitalWrite p (PyStr "HIGH") h =
      write_and_flush ("@dw%" +:+ str_of_Z p +:+ "$!") false h /\
    tx (sr (snd (Arduino.digitalWrite p (PyStr "HIGH") h))) =
      (tx (sr h) ++ ["@dw%" +:+ str_of_Z p +:+ "$!"])%list)).
Proof.
  intros Hacc.
  assert (Hpm : forall mode arg,
    Arduino.pinMode p (PyStr mode) h =
      write_and_flush ("@pm%" +:+ str_of_Z arg +:+ "$!") false
        (set_pinModeDic (insert p mode) h) ->
    tx (sr (snd (Arduino.pinMode p (PyStr mode) h))) =
      (tx (sr h) ++ ["@pm%" +:+ str_of_Z arg +:+ "$!"])%list).
  { intros mode arg ->. now rewrite write_and_flush_tx. }
  assert (Hdw : forall lvl arg,
    Arduino.digitalWrite p (PyStr lvl) h =
      write_and_flush ("@dw%" +:+ str_of_Z arg +:+ "$!") false h ->
    tx (sr (snd (Arduino.digitalWrite p (PyStr lvl) h))) =
      (tx (sr h) ++ ["@dw%" +:+ str_of_Z arg +:+ "$!"])%list).
  { intros lvl arg ->. now apply write_and_flush_tx. }
  split; [|split; [|split]].
  - split; [reflexivity | now apply Hpm].
  - split; [reflexivity | now apply Hpm].
  - split; [reflexivity | now apply Hpm].
  - intros Hout.
    assert (L : Arduino.digitalWrite p (PyStr "LOW") h =
      write_and_flush ("@dw%" +:+ str_of_Z (- p) +:+ "$!") false h).
    { unfold Arduino.digitalWrite, bind, Arduino.pinModeDic_get. now rewrite Hout. }
    assert (H : Arduino.digitalWrite p (PyStr "HIGH") h =
      write_and_flush ("@dw%" +:+ str_of_Z p +:+ "$!") false h).
    { unfold Arduino.digitalWrite, bind, Arduino.pinModeDic_get. now rewrite Hout. }
    split; (split; [assumption | now apply Hdw]).
Qed.

Lemma pin_sign_encoding_witness :
  let h := board_on idle in
  let h' := snd (Arduino.pinMode 13 (PyStr "OUTPUT") h) in
  tx (sr (snd (Arduino.pinMode 13 (PyStr "INPUT") h))) = ["@pm%-13$!"] /\
  tx (sr (snd (Arduino.pinMode 13 (PyStr "INPUT_PULLUP") h))) = ["@pm%-16397$!"] /\
  tx (sr h') = ["@pm%13$!"] /\
  tx (sr (snd (Arduino.digitalWrite 13 (PyStr "LOW") h'))) = ["@pm%13$!"; "@dw%-13$!"] /\
  tx (sr (snd (Arduino.digitalWrite 13 (PyStr "HIGH") h'))) = ["@pm%13$!"; "@dw%13$!"].
Proof.
  pose proof (pin_sign_encoding 13 (board_on idle) eq_refl) as (A & B & C & _).
  pose proof (pin_sign_encoding 13 (snd (Arduino.pinMode 13 (PyStr "OUTPUT") (board_on idle))) eq_refl)
    as (_ & _ & _ & D).
  specialize (D eq_refl). destruct D as [L H].
  split; [exact (proj2 A) | split; [exact (proj2 B) | split; [exact (proj2 C) | ]]].
  split; [exact (proj2 L) | exact (proj2 H)].
Defined.

(** *** Pin direction *)

Lemma board_on_pins s : pinModeDic (board_on s) = ∅.
Proof.
  unfold board_on, Arduino.init_sr, bind, sr_flush, boot; cbn.
  destruct (fl_faults s) as [|[e|] f]; reflexivity.
Qed.

(** C3. On a pin that was never passed to [pinMode], [digitalWrite(p, "HIGH")]
    is refused before any frame is sent, but the error raised is the
    [KeyError] of the dictionary lookup, which carries the pin only; the
    error that names the required state is raised for a pin configured
    otherwise.  After [pinMode(p, "OUTPUT")] the call sends the frame of the
    positive pin number. *)
Theorem digitalWrite_unconfigured_pin (p : Z) (s : Serial) :
  let h := board_on s in
  Arduino.digitalWrite p (PyStr "HIGH") h = (Raise (KeyError (PyInt p)), h) /\
  (let h1 := snd (Arduino.pinMode p (PyStr "INPUT") h) in
   Arduino.digitalWrite p (PyStr "HIGH") h1 =
     (Raise (ValueError ("pin: " +:+ str_of_Z p +:+ " not set to OUTPUT")), h1)) /\
  (let h2 := snd (Arduino.pinMode p (PyStr "OUTPUT") h) in
   Arduino.digitalWrite p (PyStr "HIGH") h2 =
     write_and_flush ("@dw%" +:+ str_of_Z p +:+ "$!") false h2).
Proof.
  cbv zeta. split; [|split].
  - unfold Arduino.digitalWrite, bind, Arduino.pinModeDic_get.
    now rewrite board_on_pins, lookup_empty.
  - unfold Arduino.digitalWrite, bind, Arduino.pinModeDic_get.
    destruct (write_and_flush_attrs ("@pm%" +:+ str_of_Z (- p) +:+ "$!") false
                (set_pinModeDic (insert p "INPUT") (board_on s))) as (E & _).
    change (snd (Arduino.pinMode p (PyStr "INPUT") (board_on s))) with
      (snd (write_and_flush ("@pm%" +:+ str_of_Z (- p) +:+ "$!") false
              (set_pinModeDic (insert p "INPUT") (board_on s)))).
    rewrite E. cbn [pinModeDic set_pinModeDic]. now rewrite lookup_insert_eq.
  - unfold Arduino.digitalWrite, bind, Arduino.pinModeDic_get.
    destruct (write_and_flush_attrs ("@pm%" +:+ str_of_Z p +:+ "$!") false
                (set_pinModeDic (insert p "OUTPUT") (board_on s))) as (E & _).
    change (snd (Arduino.pinMode p (PyStr "OUTPUT") (board_on s))) with
      (snd (write_and_flush ("@pm%" +:+ str_of_Z p +:+ "$!") false
              (set_pinModeDic (insert p "OUTPUT") (board_on s)))).
    rewrite E. cbn [pinModeDic set_pinModeDic]. now rewrite lookup_insert_eq.
Qed.

(** *** Arduino.pulseIn_set *)

(** C9. Every call of [pulseIn_set] stops at the read of the unassigned
    local [numtrials]: whatever the pin, the value and the trial count, it
    raises the name error and leaves the host, the stream included, as it
    was, so no [ps] frame is written and no duration is returned. *)
Theorem pulseIn_set_unbound (pin : Z) (val : pyval) (numTrials : Z) (h : Host) :
  Arduino.pulseIn_set pin val numTrials h = (Raise (UnboundLocalError "numtrials"), h).
Proof.
  unfold Arduino.pulseIn_set, bind, Arduino.load_local.
  rewrite !lookup_insert_ne by discriminate.
  reflexivity.
Qed.

(** *** Servo writes *)

(** C10. On a pin that has a servo binding, [Servos.write] and
    [Servos.writeMicroseconds] raise [TypeError]: the call passes the keyword
    [raise_errors], which [write_and_flush] does not have.  Nothing is
    written and the host is unchanged. *)
Theorem servo_write_type_error (p position : Z) (angle uS : pyval) (h : Host) :
  servo_pos h !! p = Some position ->
  Servos.write p angle h =
    (Raise (TypeError "write_and_flush() got an unexpected keyword argument 'raise_errors'"), h) /\
  Servos.writeMicroseconds p uS h =
    (Raise (TypeError "write_and_flush() got an unexpected keyword argument 'raise_errors'"), h).
Proof.
  intros Hb. unfold Servos.write, Servos.writeMicroseconds, bind, Servos.servo_pos_get.
  rewrite Hb. split; reflexivity.
Qed.

Lemma servo_write_type_error_witness :
  let h := set_servo_pos (insert 9 0) (board_on idle) in
  fst (Servos.write 9 (PyInt 90) h) =
    Raise (TypeError "write_and_flush() got an unexpected keyword argument 'raise_errors'") /\
  tx (sr (snd (Servos.writeMicroseconds 9 (PyInt 1500) h))) = [].
Proof.
  assert (B : servo_pos (set_servo_pos (insert 9 0) (board_on idle)) !! 9 = Some 0)
    by (vm_compute; reflexivity).
  destruct (servo_write_type_error 9 0 (PyInt 90) (PyInt 1500) _ B) as [W U].
  split; [now rewrite W | now rewrite U].
Defined.

(** *** Software serial *)

(** What [rd] does on a stream whose next read yields text (or times out). *)
Lemma rd_text raw rest h :
  rx (sr h) = RxBytes (BText raw) :: rest ->
  rd h = (Return (strip_crlf raw),
          set_sr (fun s => mkSerial rest (wr_faults s) (fl_faults s) (tx s)) h).
Proof. intros E. unfold rd, bind, sr_readline. rewrite E. reflexivity. Qed.

Lemma rd_timeout h :
  rx (sr h) = [] -> rd h = (Return "", h).
Proof. intros E. unfold rd, bind, sr_readline. rewrite E. reflexivity. Qed.

(** C7. [SoftwareSerial.begin] sets the channel connected and returns true
    exactly when the response of the device is the acknowledgement [ss OK];
    on any other response, or none, it sets the channel disconnected and
    returns false.  While the channel is disconnected, [write] and [read]
    return false and leave the host, the stream included, untouched. *)
Theorem software_serial_channel (p1 p2 baud : Z) (data : pyval) (h : Host) :
  (forall raw rest,
      rx (sr h) = RxBytes (BText raw) :: rest ->
      let '(r, h') := SoftwareSerial.begin p1 p2 baud h in
      r = Return (String.eqb (strip_crlf raw) "ss OK") /\
      connected h' = String.eqb (strip_crlf raw) "ss OK" /\
      (connected h' = true <-> strip_crlf raw = "ss OK")) /\
  (rx (sr h) = [] ->
      let '(r, h') := SoftwareSerial.begin p1 p2 baud h in
      r = Return false /\ connected h' = false) /\
  (connected h = false ->
      SoftwareSerial.write data h = (Return (PyBool false), h) /\
      SoftwareSerial.read h = (Return (PyBool false), h)).
Proof.
  pose (frame := build_cmd_str (PyStr "ss") (Some [PyInt p1; PyInt p2; PyInt baud])).
  assert (Hq := write_and_flush_quiet frame h).
  destruct (write_and_flush_attrs frame false h) as (_ & _ & _ & Hrx).
  split; [|split].
  - intros raw rest E.
    unfold SoftwareSerial.begin, bind. fold frame.
    destruct (write_and_flush frame false h) as [r0 h0] eqn:W.
    cbn [fst snd] in Hq, Hrx. subst r0.
    rewrite (rd_text raw rest h0) by congruence.
    destruct (String.eqb (strip_crlf raw) "ss OK") eqn:A; cbn.
    + apply String.eqb_eq in A. repeat split; auto.
    + apply String.eqb_neq in A. repeat split; auto; try discriminate; try contradiction.
  - intros E.
    unfold SoftwareSerial.begin, bind. fold frame.
    destruct (write_and_flush frame false h) as [r0 h0] eqn:W.
    cbn [fst snd] in Hq, Hrx. subst r0.
    rewrite (rd_timeout h0) by congruence.
    cbn. auto.
  - intros E. unfold SoftwareSerial.write, SoftwareSerial.read, bind, get.
    rewrite E. split; reflexivity.
Qed.

Lemma software_serial_channel_witness :
  fst (SoftwareSerial.begin 10 11 9600 (board_on (answers ["ss OK"]))) = Return true /\
  fst (SoftwareSerial.begin 10 11 9600 (board_on idle)) = Return false /\
  SoftwareSerial.write (PyStr "x") (board_on idle) = (Return (PyBool false), board_on idle).
Proof.
  destruct (software_serial_channel 10 11 9600 (PyStr "x") (board_on (answers ["ss OK"])))
    as (A & _ & _).
  destruct (software_serial_channel 10 11 9600 (PyStr "x") (board_on idle))
    as (_ & B & C).
  specialize (A "ss OK" [] eq_refl). specialize (B eq_refl). specialize (C eq_refl).
  destruct (SoftwareSerial.begin 10 11 9600 (board_on (answers ["ss OK"]))) as [r1 h1].
  destruct (SoftwareSerial.begin 10 11 9600 (board_on idle)) as [r2 h2].
  split; [exact (proj1 A) | split; [exact (proj1 B) | exact (proj1 C)]].
Defined.

(** *** Clamping *)

Lemma clamp_hi_first (v : Z) :
  (if (v >? 255)%Z then 255 else if (v <? 0)%Z then 0 else v) = clamp_byte v.
Proof.
  unfold clamp_byte.
  destruct (Z.gtb_spec v 255); [lia|]. destruct (Z.ltb_spec v 0); lia.
Qed.

Lemma clamp_lo_first (v : Z) :
  (if (v <? 0)%Z then 0 else if (v >? 255)%Z then 255 else v) = clamp_byte v.
Proof.
  unfold clamp_byte.
  destruct (Z.ltb_spec v 0); [lia|]. destruct (Z.gtb_spec v 255); lia.
Qed.

Lemma clamp_byte_range (v : Z) : 0 <= clamp_byte v <= 255.
Proof. unfold clamp_byte. lia. Qed.

(** C8. On a pin configured [OUTPUT], [analogWrite(p, v)] puts on the wire
    the value clamped to the range 0..255 (255 above it, 0 below it); with
    both pins configured [OUTPUT] and a valid bit order, [shiftOut] clamps
    its value the same way before encoding. *)
Theorem byte_values_clamped (p v dataPin clockPin value : Z) (order : pyval) (h : Host) :
  0 <= clamp_byte v <= 255 /\
  (255 < v -> clamp_byte v = 255) /\ (v < 0 -> clamp_byte v = 0) /\
  (0 <= v <= 255 -> clamp_byte v = v) /\
  (pinModeDic h !! p = Some "OUTPUT" ->
   let frame := build_cmd_str (PyStr "aw") (Some [PyInt p; PyInt (clamp_byte v)]) in
   Arduino.analogWrite p v h = write_and_flush frame false h /\
   (accepts (sr h) = true ->
    tx (sr (snd (Arduino.analogWrite p v h))) = (tx (sr h) ++ [frame])%list)) /\
  (pinModeDic h !! dataPin = Some "OUTPUT" ->
   pinModeDic h !! clockPin = Some "OUTPUT" ->
   upper (py_str order) = "MSBFIRST" \/ upper (py_str order) = "LSBFIRST" ->
   let frame :=
     build_cmd_str (PyStr "so")
       (Some [PyInt dataPin; PyInt clockPin; PyStr (upper (py_str order));
              PyInt (clamp_byte value)]) in
   Arduino.shiftOut dataPin clockPin order value h = write_and_flush frame true h /\
   (accepts (sr h) = true ->
    tx (sr (snd (Arduino.shiftOut dataPin clockPin order value h))) = (tx (sr h) ++ [frame])%list)).
Proof.
  split; [apply clamp_byte_range|].
  split; [unfold clamp_byte; lia|].
  split; [unfold clamp_byte; lia|].
  split; [unfold clamp_byte; lia|].
  split.
  - intros Hout frame.
    assert (E : Arduino.analogWrite p v h = write_and_flush frame false h).
    { unfold Arduino.analogWrite, bind, Arduino.pinModeDic_get. rewrite Hout.
      change (negb ("OUTPUT" =? "OUTPUT")) with false.
      cbv beta iota zeta. now rewrite clamp_hi_first. }
    split; [exact E|]. intros Hacc. rewrite E. now apply write_and_flush_tx.
  - intros Hd Hc Ho frame.
    assert (E : Arduino.shiftOut dataPin clockPin order value h = write_and_flush frame true h).
    { unfold Arduino.shiftOut, bind, Arduino.pinModeDic_get, ret. rewrite Hd.
      change (String.eqb "OUTPUT" "OUTPUT") with true. cbv beta iota. rewrite Hc.
      change (String.eqb "OUTPUT" "OUTPUT") with true. cbv beta iota.
      rewrite upper_idem.
      assert (V : str_in (upper (py_str order)) ["MSBFIRST"; "LSBFIRST"] = true)
        by (destruct Ho as [-> | ->]; reflexivity).
      rewrite V. cbn [andb]. cbv beta iota zeta. rewrite clamp_lo_first. reflexivity. }
    split; [exact E|]. intros Hacc. rewrite E. now apply write_and_flush_tx.
Qed.

Lemma byte_values_clamped_witness :
  let h := snd (Arduino.pinMode 8 (PyStr "OUTPUT") (snd (Arduino.pinMode 9 (PyStr "OUTPUT") (board_on idle)))) in
  tx (sr (snd (Arduino.analogWrite 9 300 h))) = ["@pm%9$!"; "@pm%8$!"; "@aw%9%255$!"] /\
  tx (sr (snd (Arduino.shiftOut 8 9 (PyStr "msbfirst") (-5) h))) =
    ["@pm%9$!"; "@pm%8$!"; "@so%8%9%MSBFIRST%0$!"].
Proof.
  pose (h := snd (Arduino.pinMode 8 (PyStr "OUTPUT") (snd (Arduino.pinMode 9 (PyStr "OUTPUT") (board_on idle))))).
  destruct (byte_values_clamped 9 300 8 9 (-5) (PyStr "msbfirst") h)
    as (_ & _ & _ & _ & A & S).
  assert (H9 : pinModeDic h !! 9 = Some "OUTPUT") by (vm_compute; reflexivity).
  assert (H8 : pinModeDic h !! 8 = Some "OUTPUT") by (vm_compute; reflexivity).
  destruct (A H9) as [_ A']. destruct (S H8 H9 (or_introl eq_refl)) as [_ S'].
  split; [exact (A' eq_refl) | exact (S' eq_refl)].
Defined.

(** *** Fallback values of the read operations *)

(** [rd] returns [next_response] when there is one and raises otherwise. *)
Lemma rd_next_response h :
  match next_response (sr h) with
  | Some t => fst (rd h) = Return t
  | None => exists e, fst (rd h) = Raise e
  end.
Proof.
  unfold next_response, rd, bind, sr_readline.
  destruct (rx (sr h)) as [|[[raw|]|e] r]; cbn; eauto.
Qed.

Lemma next_response_after_write data re h :
  next_response (sr (snd (write_and_flush data re h))) = next_response (sr h).
Proof.
  unfold next_response.
  destruct (write_and_flush_attrs data re h) as (_ & _ & _ & E).
  cbv zeta in E. now rewrite E.
Qed.

(** [analogRead] returns the integer the device answers, and 0 when the
    answer is missing, unparsable or the read fails. *)
Lemma analogRead_result pin h :
  fst (Arduino.analogRead pin h) =
  Return (match next_response (sr h) ≫= py_int with Some z => z | None => 0 end).
Proof.
  unfold Arduino.analogRead, bind at 1.
  pose proof (write_and_flush_quiet
    (build_cmd_str (PyStr "ar") (Some [PyInt pin])) h) as Q.
  pose proof (next_response_after_write
    (build_cmd_str (PyStr "ar") (Some [PyInt pin])) false h) as N.
  destruct (write_and_flush _ false h) as [r0 h0]. cbn [fst snd] in Q, N. subst r0.
  rewrite <- N. pose proof (rd_next_response h0) as R.
  unfold try_except, bind.
  destruct (next_response (sr h0)) as [t|]; cbn [mbind option_bind].
  - destruct (rd h0) as [r1 h1]. cbn [fst] in R. subst r1.
    unfold int_of. destruct (py_int t); reflexivity.
  - destruct R as [e R]. destruct (rd h0) as [r1 h1]. cbn [fst] in R. now subst r1.
Qed.

Lemma write_and_flush_outcome data re h :
  fst (write_and_flush data re h) = Return tt \/
  exists e, fst (write_and_flush data re h) = Raise e.
Proof.
  unfold write_and_flush, try_except, bind, sr_write, sr_flush.
  destruct (wr_faults (sr h)) as [|[e|] w]; cbn;
    destruct (fl_faults (sr h)) as [|[e'|] f]; destruct re; cbn; eauto.
Qed.

(** On a pin configured [INPUT], [pulseIn] returns the float the device
    answers, and -1 when the answer is missing, unparsable or the read
    fails. *)
Lemma pulseIn_result pin val h :
  pinModeDic h !! pin = Some "INPUT" ->
  str_in (upper (py_str val)) ["LOW"; "HIGH"] = true ->
  fst (Arduino.pulseIn pin val h) =
  Return (match next_response (sr h) ≫= py_float with
          | Some f => NFloat f
          | None => NInt (-1)
          end).
Proof.
  intros Hin Hval. unfold Arduino.pulseIn, bind at 1, Arduino.pinModeDic_get. rewrite Hin.
  change (negb ("INPUT" =? "INPUT")) with false. cbv beta iota. rewrite Hval.
  cbn [negb]. cbv beta iota zeta. unfold bind at 1.
  set (frame := build_cmd_str _ _).
  pose proof (write_and_flush_quiet frame h) as Q.
  pose proof (next_response_after_write frame false h) as N.
  destruct (write_and_flush frame false h) as [r0 h0]. cbn [fst snd] in Q, N. subst r0.
  rewrite <- N. pose proof (rd_next_response h0) as R.
  unfold try_except, bind.
  destruct (next_response (sr h0)) as [t|]; cbn [mbind option_bind].
  - destruct (rd h0) as [r1 h1]. cbn [fst] in R. subst r1.
    unfold float_of_str. destruct (py_float t); reflexivity.
  - destruct R as [e R]. destruct (rd h0) as [r1 h1]. cbn [fst] in R. now subst r1.
Qed.

(** [EEPROM.size] returns 0 when the answer is missing or unparsable, and
    when the write or the read fails. *)
Lemma EEPROM_size_fallback h :
  next_response (sr h) ≫= py_int = None ->
  fst (EEPROM.size h) = Return 0.
Proof.
  intros Hn. unfold EEPROM.size.
  change (call_write_and_flush ?d [("raise_error", true)]) with (write_and_flush d true).
  set (frame := build_cmd_str _ _).
  pose proof (write_and_flush_outcome frame true h) as Q.
  pose proof (next_response_after_write frame true h) as N.
  unfold try_except, bind.
  destruct (write_and_flush frame true h) as [r0 h0]. cbn [fst snd] in Q, N.
  destruct Q as [-> | [e ->]]; [|reflexivity].
  rewrite <- N in Hn. pose proof (rd_next_response h0) as R.
  destruct (next_response (sr h0)) as [t|]; cbn [mbind option_bind] in Hn.
  - destruct (rd h0) as [r1 h1]. cbn [fst] in R. subst r1.
    unfold int_of. now rewrite Hn.
  - destruct R as [e R]. destruct (rd h0) as [r1 h1]. cbn [fst] in R. now subst r1.
Qed.

(** [EEPROM.read] returns the byte the device answers and 0 when a
    non-empty answer is unparsable or the read fails; an empty answer takes
    neither path. *)
Lemma EEPROM_read_result address h :
  fst (EEPROM.read address h) =
  Return (match next_response (sr h) with
          | Some t =>
              if nonempty t then
                match py_int t with Some z => PyInt z | None => PyInt 0 end
              else PyNone
          | None => PyInt 0
          end).
Proof.
  unfold EEPROM.read.
  set (frame := build_cmd_str _ _).
  pose proof (write_and_flush_quiet frame h) as Q.
  pose proof (next_response_after_write frame false h) as N.
  unfold try_except, bind.
  destruct (write_and_flush frame false h) as [r0 h0]. cbn [fst snd] in Q, N. subst r0.
  rewrite <- N. pose proof (rd_next_response h0) as R.
  destruct (next_response (sr h0)) as [t|].
  - destruct (rd h0) as [r1 h1]. cbn [fst] in R. subst r1.
    destruct (nonempty t); [|reflexivity].
    unfold int_of. destruct (py_int t); reflexivity.
  - destruct R as [e R]. destruct (rd h0) as [r1 h1]. cbn [fst] in R. now subst r1.
Qed.

(** C5. The read operations fall back to a sentinel when the device does not
    answer: [analogRead] to 0, [pulseIn] to -1 and [EEPROM.size] to 0
    ([analogRead_result], [pulseIn_result], [EEPROM_size_fallback]).
    [EEPROM.read] does not: on a timed-out or empty response, whatever the
    stream does on the write, it returns [None], not 0; only a non-empty
    answer that is not a number gives 0. *)
Theorem EEPROM_read_empty_response (address : Z) (wf ff : list (option exn))
    (sent out : list string) (pins : gmap Z string) (servos : gmap Z Z) (c : bool) :
  fst (EEPROM.read address (mkHost (mkSerial [] wf ff sent) out pins servos c)) = Return PyNone /\
  (forall rest,
     fst (EEPROM.read address
            (mkHost (mkSerial (RxBytes (BText (String "013" (String "010" ""))) :: rest)
                              wf ff sent) out pins servos c))
     = Return PyNone) /\
  fst (EEPROM.read 0 (board_on (answers ["x"]))) = Return (PyInt 0) /\
  fst (EEPROM.size (board_on idle)) = Return 0 /\
  fst (Arduino.analogRead 0 (board_on idle)) = Return 0.
Proof.
  split; [|split; [|split; [|split]]]; try reflexivity.
  - now rewrite EEPROM_read_result.
  - intros rest. now rewrite EEPROM_read_result.
Qed.

(** *** Version handshake on an explicit port *)

(** C4, as stated, fails: a response that differs from the library version
    and does not look like a version string is accepted without any warning,
    and a device that never answers does not make the connection fail. *)
Lemma explicit_port_silent_mismatch :
  "hello" <> libraryVersion /\
  Arduino.init_port (boot (answers ["boot" +:+ CRLF; "hello" +:+ CRLF])) =
    (Return tt, boot (mkSerial [] [] [] ["@version%$!"])) /\
  console (snd (Arduino.init_port (boot (answers ["boot" +:+ CRLF; "hello" +:+ CRLF])))) = [] /\
  Arduino.init_port (boot idle) = (Return tt, boot (mkSerial [] [] [] ["@version%$!"])).
Proof. repeat split; try reflexivity. discriminate. Qed.

Lemma looks_like_version_spec v :
  looks_like_version v =
  String.eqb (match v with String c _ => String c "" | _ => "" end) "V"
  || String.eqb v "version".
Proof.
  destruct v as [|c r]; [reflexivity|].
  destruct c as [[] [] [] [] [] [] [] []]; reflexivity.
Qed.

(** C4, amended. When connecting by explicit port over a stream that raises
    no error, the session is created whatever the handshake response is, no
    response at all included.  The compatibility warning is printed exactly
    when the response differs from the library version and either starts
    with [V] or is the text [version]; every other differing response is
    accepted silently, as is a handshake query that the stream refused.
    The connection fails when a read raises or when the bytes of the
    response cannot be decoded. *)
Theorem explicit_port_handshake (first : bytes) (raw : string) (rest : list rx_event)
    (sent : list string) (e : exn) (w : list (option exn)) :
  (let h := boot (mkSerial (RxBytes first :: RxBytes (BText raw) :: rest) [] [] sent) in
   let v := strip_crlf raw in
   fst (Arduino.init_port h) = Return tt /\
   console (snd (Arduino.init_port h)) =
     (if negb (String.eqb v libraryVersion) && looks_like_version v
      then version_warning v else []) /\
   tx (sr (snd (Arduino.init_port h))) = (sent ++ ["@version%$!"])%list) /\
  (let h := boot (mkSerial [RxBytes first] [] [] sent) in
   fst (Arduino.init_port h) = Return tt /\
   console (snd (Arduino.init_port h)) = []) /\
  (let h := boot (mkSerial [] [] [] sent) in
   fst (Arduino.init_port h) = Return tt /\
   console (snd (Arduino.init_port h)) = []) /\
  (let h := boot (mkSerial (RxBytes first :: rest) (Some e :: w) [] sent) in
   fst (Arduino.init_port h) = Return tt /\
   console (snd (Arduino.init_port h)) = [] /\
   tx (sr (snd (Arduino.init_port h))) = sent) /\
  (let h := boot (mkSerial (RxError e :: rest) [] [] sent) in
   fst (Arduino.init_port h) = Raise e) /\
  (let h := boot (mkSerial (RxBytes first :: RxError e :: rest) [] [] sent) in
   fst (Arduino.init_port h) = Raise e) /\
  (let h := boot (mkSerial (RxBytes first :: RxBytes BBinary :: rest) [] [] sent) in
   fst (Arduino.init_port h) = Raise UnicodeDecodeError).
Proof.
  split; [|repeat split; reflexivity].
  cbv zeta. rewrite looks_like_version_spec.
  unfold Arduino.init_port, get_version, bind, try_except, boot.
  cbn -[String.eqb String.append version_warning libraryVersion].
  destruct (strip_crlf raw) as [|c r].
  - repeat split; reflexivity.
  - destruct (String.eqb (String c r) libraryVersion);
      cbn -[String.eqb String.append version_warning libraryVersion];
      [repeat split; reflexivity|].
    destruct (String.eqb (String c "") "V" || String.eqb (String c r) "version");
      repeat split; reflexivity.
Qed.

(** *** Servos: the attach loop *)

Lemma attach_loop_S fuel cmd h :
  Servos.attach_loop (S fuel) cmd h =
  match write_and_flush cmd true h with
  | (Return _, h0) =>
      match rd h0 with
      | (Return response, h1) =>
          if nonempty response then (Return response, h1)
          else Servos.attach_loop fuel cmd h1
      | (Raise e, h1) => (Raise e, h1)
      | (Diverge, h1) => (Diverge, h1)
      end
  | (Raise e, h0) => (Raise e, h0)
  | (Diverge, h0) => (Diverge, h0)
  end.
Proof.
  change (Servos.attach_loop (S fuel) cmd h) with
    (bind (write_and_flush cmd true)
       (fun _ => bind rd (fun response =>
          if nonempty response then ret response else Servos.attach_loop fuel cmd)) h).
  unfold bind.
  destruct (write_and_flush cmd true h) as [[?| |] h0]; try reflexivity.
  destruct (rd h0) as [[resp| |] h1]; try reflexivity.
  destruct (nonempty resp); reflexivity.
Qed.

(** One round of the loop that does not leave it: what it does to the
    stream script and to the attributes. *)
Lemma attach_round cmd h h0 h1 response :
  write_and_flush cmd true h = (Return tt, h0) ->
  rd h0 = (Return response, h1) ->
  servo_pos h1 = servo_pos h /\ pinModeDic h1 = pinModeDic h /\
  connected h1 = connected h /\ console h1 = console h /\
  tx (sr h1) = (tx (sr h) ++ [cmd])%list /\
  wr_faults (sr h1) = tail (wr_faults (sr h)) /\
  fl_faults (sr h1) = tail (fl_faults (sr h)) /\
  match rx (sr h) with
  | [] => response = "" /\ rx (sr h1) = []
  | RxBytes (BText raw) :: r => response = strip_crlf raw /\ rx (sr h1) = r
  | _ => False
  end.
Proof.
  unfold write_and_flush, try_except, bind, sr_write, sr_flush, rd, sr_readline.
  destruct h as [[l wf ff t] out pins servos c]; cbn.
  destruct wf as [|[e|] wf]; cbn; destruct ff as [|[e'|] ff]; cbn;
    try discriminate; intros [= <-];
    destruct l as [|[[raw|]|e''] l]; cbn; try discriminate; intros [= <- <-];
    cbn; repeat split; reflexivity.
Qed.

(** When the loop returns, it returns the first non-empty answer of the
    device, and it has changed nothing but the stream. *)
Lemma attach_loop_returns fuel cmd : forall h response h',
  Servos.attach_loop fuel cmd h = (Return response, h') ->
  first_reply (rx (sr h)) = Some response /\
  servo_pos h' = servo_pos h /\ pinModeDic h' = pinModeDic h /\
  connected h' = connected h.
Proof.
  induction fuel as [|fuel IH]; intros h response h'; [discriminate|].
  rewrite attach_loop_S.
  destruct (write_and_flush cmd true h) as [[[]| |] h0] eqn:W; try discriminate.
  destruct (rd h0) as [[resp| |] h1] eqn:R; try discriminate.
  destruct (attach_round _ _ _ _ _ W R) as (S1 & S2 & S3 & _ & _ & _ & _ & Hrx).
  destruct (nonempty resp) eqn:N.
  - intros [= <- <-].
    destruct (rx (sr h)) as [|[[raw|]|e] r]; try contradiction.
    + destruct Hrx as [-> _]. discriminate.
    + destruct Hrx as [-> _]. cbn. rewrite N. auto.
  - intros L. apply IH in L. destruct L as (F & T1 & T2 & T3).
    repeat split; try congruence.
    destruct (rx (sr h)) as [|[[raw|]|e] r]; try contradiction.
    + destruct Hrx as [_ E]. now rewrite E in F.
    + destruct Hrx as [-> E]. cbn. rewrite N. now rewrite E in F.
Qed.

(** On a fault-free stream the loop ends as soon as the device answers. *)
Lemma attach_loop_answers cmd response : forall l h fuel,
  rx (sr h) = l -> wr_faults (sr h) = [] -> fl_faults (sr h) = [] ->
  first_reply l = Some response ->
  (length l <= fuel)%nat ->
  exists h', Servos.attach_loop fuel cmd h = (Return response, h').
Proof.
  induction l as [|ev l IH]; intros h fuel Hl Hw Hf Hr Hn; [discriminate|].
  destruct fuel as [|fuel]; [cbn in Hn; lia|].
  rewrite attach_loop_S.
  destruct ev as [[raw|]|e]; try discriminate.
  destruct (write_and_flush cmd true h) as [r0 h0] eqn:W.
  assert (r0 = Return tt) as ->.
  { revert W. unfold write_and_flush, try_except, bind, sr_write, sr_flush.
    rewrite Hw; cbn. rewrite Hf. now intros [= <- _]. }
  destruct (write_and_flush_attrs cmd true h) as (_ & _ & _ & Hrx).
  rewrite W in Hrx; cbn [snd] in Hrx. rewrite Hl in Hrx.
  destruct (rd h0) as [r1 h1] eqn:R.
  rewrite (rd_text raw l h0 Hrx) in R. injection R as <- <-.
  cbn [first_reply] in Hr.
  destruct (nonempty (strip_crlf raw)).
  - injection Hr as <-. eauto.
  - destruct (attach_round cmd h h0 _ (strip_crlf raw) W (rd_text raw l h0 Hrx))
      as (_ & _ & _ & _ & _ & Hw' & Hf' & _).
    apply IH; try assumption.
    + reflexivity.
    + now rewrite Hw', Hw.
    + now rewrite Hf', Hf.
    + cbn in Hn. lia.
Qed.

(** Once the script of the stream is used up, the loop never exits. *)
Lemma attach_loop_quiet cmd : forall fuel h,
  pending (sr h) = 0%nat -> fst (Servos.attach_loop fuel cmd h) = Diverge.
Proof.
  induction fuel as [|fuel IH]; intros h Hp; [reflexivity|].
  rewrite attach_loop_S.
  destruct h as [[l wf ff t] out pins servos c]. unfold pending in Hp; cbn in Hp.
  destruct l; [|cbn in Hp; lia]. destruct wf; [|cbn in Hp; lia].
  destruct ff; [|cbn in Hp; lia].
  cbn. apply IH. reflexivity.
Qed.

(** Fuel beyond the length of the script does not change the outcome: the
    bound used by [Servos.attach] loses no behaviour of the loop. *)
Lemma attach_loop_fuel cmd : forall n m h,
  (pending (sr h) < n)%nat -> (n <= m)%nat ->
  fst (Servos.attach_loop m cmd h) = fst (Servos.attach_loop n cmd h).
Proof.
  induction n as [|n IH]; intros m h Hp Hm; [lia|].
  destruct m as [|m]; [lia|].
  rewrite !attach_loop_S.
  destruct (write_and_flush cmd true h) as [[[]| |] h0] eqn:W; try reflexivity.
  destruct (rd h0) as [[resp| |] h1] eqn:R; try reflexivity.
  destruct (nonempty resp); [reflexivity|].
  destruct (attach_round _ _ _ _ _ W R) as (_ & _ & _ & _ & _ & Hw & Hf & Hrx).
  assert (Hle : (pending (sr h1) < pending (sr h) \/ pending (sr h1) = 0)%nat).
  { unfold pending in *. rewrite Hw, Hf.
    destruct (rx (sr h)) as [|[[raw|]|e] r]; try contradiction;
      destruct Hrx as [_ ->];
      destruct (wr_faults (sr h)), (fl_faults (sr h)); cbn; lia. }
  destruct (Nat.eq_dec (pending (sr h1)) 0%nat) as [Z0|NZ].
  - now rewrite !attach_loop_quiet.
  - apply IH; lia.
Qed.

(** *** Servos: attach, detach, write *)

(** A successful [attach] binds the pin to the integer of the first
    non-empty answer and changes no other binding. *)
Lemma attach_returns p mn mx h r h1 :
  Servos.attach p mn mx h = (Return r, h1) ->
  r = 1 /\
  exists response position,
    first_reply (rx (sr h)) = Some response /\
    py_int response = Some position /\
    servo_pos h1 = <[p := position]> (servo_pos h).
Proof.
  unfold Servos.attach, bind at 1, get. cbv beta iota. unfold bind at 1.
  destruct (Servos.attach_loop _ _ h) as [[resp| |] h0] eqn:L; try discriminate.
  apply attach_loop_returns in L. destruct L as (F & S1 & _).
  unfold int_of, bind. destruct (py_int resp) as [position|] eqn:P; [|discriminate].
  cbn. intros [= <- <-]. split; [reflexivity|].
  exists resp, position. cbn. now rewrite S1.
Qed.

(** [attach] does succeed on a fault-free stream whose first non-empty
    answer is an integer. *)
Lemma attach_succeeds p mn mx h response position :
  wr_faults (sr h) = [] -> fl_faults (sr h) = [] ->
  first_reply (rx (sr h)) = Some response ->
  py_int response = Some position ->
  exists h1, Servos.attach p mn mx h = (Return 1, h1).
Proof.
  intros Hw Hf Hr Hp.
  unfold Servos.attach, bind at 1, get. cbv beta iota. unfold bind at 1.
  destruct (attach_loop_answers
              (build_cmd_str (PyStr "sva") (Some [PyInt p; PyInt mn; PyInt mx]))
              response (rx (sr h)) h (S (pending (sr h))) eq_refl Hw Hf Hr)
    as [h0 L]; [unfold pending; lia|].
  rewrite L. unfold int_of, bind. rewrite Hp. cbn. eauto.
Qed.

(** C6. Servo lifecycle.  A successful [attach(p)] binds [p] to the position
    handle the device assigned (the integer of its first non-empty answer)
    and to nothing else; [detach(p)] then sends the detach command for that
    handle and removes the binding; [write(p, angle)] after the detach
    raises the error of the missing binding and writes nothing. *)
Theorem servo_lifecycle (p mn mx : Z) (angle : pyval) (h h1 : Host) (r : Z) :
  Servos.attach p mn mx h = (Return r, h1) ->
  exists response position,
    first_reply (rx (sr h)) = Some response /\
    py_int response = Some position /\
    servo_pos h1 = <[p := position]> (servo_pos h) /\
    servo_pos h1 !! p = Some position /\
    (forall q, q <> p -> servo_pos h1 !! q = servo_pos h !! q) /\
    let h2 := snd (Servos.detach p h1) in
    fst (Servos.detach p h1) = Return tt /\
    (accepts (sr h1) = true ->
     tx (sr h2) = (tx (sr h1) ++ ["@svd%" +:+ str_of_Z position +:+ "$!"])%list) /\
    servo_pos h2 = delete p (servo_pos h1) /\
    servo_pos h2 !! p = None /\
    Servos.write p angle h2 = (Raise (KeyError (PyInt p)), h2).
Proof.
  intros A. apply attach_returns in A.
  destruct A as (_ & response & position & F & P & B).
  exists response, position.
  assert (Hb : servo_pos h1 !! p = Some position) by (rewrite B; apply lookup_insert_eq).
  split; [exact F|]. split; [exact P|]. split; [exact B|]. split; [exact Hb|].
  split; [intros q Hq; rewrite B; now apply lookup_insert_ne|].
  set (frame := "@svd%" +:+ str_of_Z position +:+ "$!").
  assert (D : Servos.detach p h1 =
              (Return tt, set_servo_pos (delete p) (snd (write_and_flush frame false h1)))).
  { unfold Servos.detach, bind at 1, Servos.servo_pos_get. rewrite Hb.
    change (build_cmd_str (PyStr "svd") (Some [PyInt position])) with frame.
    unfold bind. pose proof (write_and_flush_quiet frame h1) as Q.
    destruct (write_and_flush frame false h1) as [r0 h0]. cbn [fst] in Q. now subst r0. }
  destruct (write_and_flush_attrs frame false h1) as (_ & S1 & _).
  cbv zeta in S1. cbv zeta. rewrite D. cbn [fst snd].
  split; [reflexivity|].
  split; [intros Hacc; unfold set_servo_pos; cbn [sr]; now apply write_and_flush_tx|].
  assert (Hd : servo_pos (set_servo_pos (delete p) (snd (write_and_flush frame false h1)))
               = delete p (servo_pos h1))
    by (unfold set_servo_pos; cbn [servo_pos]; now rewrite S1).
  split; [exact Hd|].
  assert (Hn : servo_pos (set_servo_pos (delete p) (snd (write_and_flush frame false h1))) !! p
               = None) by (rewrite Hd; apply lookup_delete_eq).
  split; [exact Hn|].
  unfold Servos.write, bind, Servos.servo_pos_get. now rewrite Hn.
Qed.

Lemma servo_lifecycle_witness :
  let h := board_on (answers [""; "3" +:+ CRLF]) in
  let h1 := snd (Servos.attach 9 544 2400 h) in
  let h2 := snd (Servos.detach 9 h1) in
  servo_pos h1 !! 9 = Some 3 /\
  tx (sr h2) = ["@sva%9%544%2400$!"; "@sva%9%544%2400$!"; "@svd%3$!"] /\
  Servos.write 9 (PyInt 90) h2 = (Raise (KeyError (PyInt 9)), h2).
Proof.
  intros h h1 h2.
  assert (A : Servos.attach 9 544 2400 h = (Return 1, h1))
    by (vm_compute; reflexivity).
  destruct (servo_lifecycle 9 544 2400 (PyInt 90) h h1 1 A)
    as (response & position & F & P & _ & Hb & _ & _ & Htx & _ & _ & W).
  assert (response = "3") as -> by (vm_compute in F; congruence).
  assert (position = 3) as -> by (vm_compute in P; congruence).
  split; [exact Hb|]. split; [|exact W].
  fold h2 in Htx. rewrite (Htx eq_refl). vm_compute. reflexivity.
Defined.

(** ** Further properties of the code *)

(** *** Integers on the wire: [str] then [int] *)

Lemma append_nil_r (a : string) : a +:+ "" = a.
Proof. induction a as [|x a IH]; simpl; [reflexivity | f_equal; exact IH]. Qed.

Lemma rev_app_rev_app s : forall a b,
  String.rev_app (String.rev_app s a) b = String.rev_app a (s +:+ b).
Proof.
  induction s as [|c s IH]; intros a b; [reflexivity|].
  cbn [String.rev_app]. now rewrite IH.
Qed.

Lemma rev_involutive s : String.rev (String.rev s) = s.
Proof.
  unfold String.rev. rewrite rev_app_rev_app. cbn [String.rev_app].
  apply append_nil_r.
Qed.

Lemma str_all_rev_app f s : forall a,
  str_all f (String.rev_app s a) = str_all f s && str_all f a.
Proof.
  induction s as [|c s IH]; intros a; [reflexivity|].
  cbn [String.rev_app str_all]. rewrite IH. cbn [str_all].
  destruct (f c), (str_all f s); reflexivity.
Qed.

Lemma str_all_impl (f g : ascii -> bool) s :
  (forall c, f c = true -> g c = true) ->
  str_all f s = true -> str_all g s = true.
Proof.
  intros Hfg. induction s as [|c s IH]; [reflexivity|].
  cbn [str_all]. intros [Hc Hs]%andb_prop. now rewrite (Hfg c Hc), IH.
Qed.

Lemma lstrip_no_space s :
  str_all (fun c => negb (is_space c)) s = true -> lstrip s = s.
Proof.
  destruct s as [|c s]; [reflexivity|].
  cbn [str_all lstrip]. intros [Hc _]%andb_prop.
  now destruct (is_space c).
Qed.

(** Text without whitespace is left alone by [strip]. *)
Lemma strip_no_space s :
  str_all (fun c => negb (is_space c)) s = true -> strip s = s.
Proof.
  intros H. unfold strip. rewrite (lstrip_no_space s H).
  rewrite lstrip_no_space; [apply rev_involutive|].
  unfold String.rev. rewrite str_all_rev_app, H. reflexivity.
Qed.

(** Text without underscores passes the grouping check unchanged. *)
Lemma drop_underscores_plain s : forall prev,
  match prev with Some p => Ascii.eqb p "_" | None => false end = false ->
  str_all (fun c => negb (Ascii.eqb c "_")) s = true ->
  drop_underscores prev s = Some s.
Proof.
  induction s as [|c s IH]; intros prev Hp.
  - intros _. cbn [drop_underscores]. now rewrite Hp.
  - cbn [str_all]. intros [Hc Hs]%andb_prop.
    cbn [drop_underscores]. rewrite Hp.
    destruct (Ascii.eqb c "_") eqn:E; [discriminate|].
    cbn [andb]. rewrite (IH (Some c)); [reflexivity | exact E | exact Hs].
Qed.

Lemma all_digits_str_all s : all_digits s = str_all is_digit s.
Proof. induction s as [|c s IH]; [reflexivity|]. cbn. now rewrite IH. Qed.

Lemma string_of_uint_digits d : str_all is_digit (NilEmpty.string_of_uint d) = true.
Proof. induction d; cbn; auto. Qed.

Lemma digits_val_acc d : forall acc : positive,
  digits_val (Zpos acc) (NilEmpty.string_of_uint d) = Zpos (Pos.of_uint_acc d acc).
Proof.
  induction d; intros acc; cbn [NilEmpty.string_of_uint digits_val Pos.of_uint_acc];
    try reflexivity;
    match goal with
    | |- digits_val ?a _ = Zpos (Pos.of_uint_acc _ ?b) =>
        replace a with (Zpos b)
          by (rewrite ?Pos2Z.inj_add, ?Pos2Z.inj_mul; vm_compute digit_val; lia)
    end; apply IHd.
Qed.

Lemma digits_val_of_uint d :
  digits_val 0 (NilEmpty.string_of_uint d) = Z.of_N (Pos.of_uint d).
Proof.
  induction d; cbn [NilEmpty.string_of_uint digits_val Pos.of_uint];
    try reflexivity; try exact IHd;
    match goal with
    | |- digits_val ?a _ = Z.of_N (N.pos (Pos.of_uint_acc _ ?b)) =>
        change a with (Zpos b)
    end; apply digits_val_acc.
Qed.

Lemma split_sign_digit c r :
  is_digit c = true -> split_sign (String c r) = (false, String c r).
Proof.
  destruct c as [[] [] [] [] [] [] [] []]; intros H; try discriminate H; reflexivity.
Qed.

Lemma digit_not_space c : is_digit c = true -> negb (is_space c) = true.
Proof. destruct c as [[] [] [] [] [] [] [] []]; intros H; try discriminate H; reflexivity. Qed.

Lemma digit_not_underscore c : is_digit c = true -> negb (Ascii.eqb c "_") = true.
Proof. destruct c as [[] [] [] [] [] [] [] []]; intros H; try discriminate H; reflexivity. Qed.

(** The decimal text of a positive number reads back as that number. *)
Lemma py_int_digits (p : positive) (neg : bool) :
  let ds := NilEmpty.string_of_uint (Pos.to_uint p) in
  py_int (if neg then String "-" ds else ds) = Some (if neg then Zneg p else Zpos p).
Proof.
  intros ds.
  assert (Hd : str_all is_digit ds = true) by apply string_of_uint_digits.
  assert (Hv : digits_val 0 ds = Zpos p).
  { unfold ds. rewrite digits_val_of_uint, DecimalPos.Unsigned.of_to. reflexivity. }
  assert (Hne : nonempty ds = true).
  { destruct ds; [discriminate Hv | reflexivity]. }
  assert (Hsp := str_all_impl _ _ ds digit_not_space Hd).
  assert (Hus := str_all_impl _ _ ds digit_not_underscore Hd).
  assert (Hdig : isdigit ds = true).
  { unfold isdigit. now rewrite Hne, all_digits_str_all, Hd. }
  unfold py_int. destruct neg.
  - rewrite strip_no_space by (cbn [str_all]; now rewrite Hsp).
    cbn [drop_underscores]. change (Ascii.eqb "-" "_") with false. cbn [andb].
    rewrite (drop_underscores_plain ds (Some "-"%char) eq_refl Hus).
    cbn [option_map split_sign]. rewrite Hdig, Hv. reflexivity.
  - rewrite (strip_no_space ds Hsp).
    rewrite (drop_underscores_plain ds None eq_refl Hus).
    destruct ds as [|c r]; [discriminate Hne|].
    rewrite split_sign_digit by (cbn [str_all] in Hd; now apply andb_prop in Hd).
    rewrite Hdig, Hv. reflexivity.
Qed.

(** X1. Integers survive the wire format: the text [str(z)] that
    [build_cmd_str] writes for an integer argument is read back by [int()]
    as the same integer, for every [z]. *)
Theorem int_of_str_round_trip (z : Z) : py_int (str_of_Z z) = Some z.
Proof.
  destruct z as [|p|p].
  - reflexivity.
  - exact (py_int_digits p false).
  - exact (py_int_digits p true).
Qed.

(** *** Frames are not escaped *)

Lemma str_join_split sep a b : forall pre post,
  str_join sep (pre ++ (a +:+ sep +:+ b) :: post) =
  str_join sep (pre ++ a :: b :: post).
Proof.
  induction pre as [|x pre IH]; intros post.
  - destruct post as [|q r]; [reflexivity|].
    change (((a +:+ sep +:+ b) +:+ sep +:+ str_join sep (q :: r)) =
            (a +:+ sep +:+ b +:+ sep +:+ str_join sep (q :: r))).
    now rewrite !append_assoc.
  - specialize (IH post).
    destruct pre as [|y pre]; cbn [app] in *.
    + change (x +:+ sep +:+ str_join sep ((a +:+ sep +:+ b) :: post) =
              x +:+ sep +:+ str_join sep (a :: b :: post)).
      now rewrite IH.
    + change (x +:+ sep +:+ str_join sep (y :: (pre ++ (a +:+ sep +:+ b) :: post)%list) =
              x +:+ sep +:+ str_join sep (y :: (pre ++ a :: b :: post)%list)).
      now rewrite IH.
Qed.

(** X2. Arguments are not escaped: a text argument that contains [%] builds
    the same frame as the two arguments on either side of the [%], wherever
    it stands in the argument list, so the receiver cannot tell them
    apart. *)
Theorem build_cmd_str_no_escape (cmd : pyval) (a b : string) (pre post : list pyval) :
  build_cmd_str cmd (Some (pre ++ PyStr (a +:+ "%" +:+ b) :: post)%list) =
  build_cmd_str cmd (Some (pre ++ PyStr a :: PyStr b :: post)%list).
Proof.
  unfold build_cmd_str.
  assert (E : str_join "%" (map py_str (pre ++ PyStr (a +:+ "%" +:+ b) :: post)) =
              str_join "%" (map py_str (pre ++ PyStr a :: PyStr b :: post))).
  { rewrite !map_app. cbn [map py_str]. apply str_join_split. }
  destruct pre as [|x pre]; cbn [app] in *; now rewrite E.
Qed.

(** *** Reading a line *)

Lemma strip_crlf_terminated s :
  str_all not_cr s = true -> strip_crlf (s +:+ CRLF) = s.
Proof.
  induction s as [|c r IH]; [reflexivity|].
  cbn [str_all]. intros [Hc Hr]%andb_prop. specialize (IH Hr).
  unfold not_cr in Hc. apply negb_true_iff in Hc.
  destruct r as [|d r'].
  - change (String c "" +:+ CRLF) with (String c (String "013" (String "010" ""))).
    cbn [strip_crlf]. rewrite Hc. reflexivity.
  - change (String c (String d r') +:+ CRLF) with (String c (String d (r' +:+ CRLF))).
    change (String d (r' +:+ CRLF)) with (String d r' +:+ CRLF) in *.
    change (strip_crlf (String c (String d r' +:+ CRLF))) with
      (if (Ascii.eqb c "013" && Ascii.eqb d "010")%bool then strip_crlf (r' +:+ CRLF)
       else String c (strip_crlf (String d r' +:+ CRLF))).
    rewrite Hc. cbn [andb]. now rewrite IH.
Qed.

(** X3. [rd] undoes the line framing of the device: when the next line is a
    text without carriage return followed by the terminator, [rd] returns
    exactly that text and consumes that one line; when nothing arrives
    before the timeout it returns the empty text and the stream is
    unchanged. *)
Theorem rd_line_round_trip (text : string) (rest : list rx_event) (h : Host) :
  (str_all not_cr text = true ->
   rx (sr h) = RxBytes (BText (text +:+ CRLF)) :: rest ->
   rd h = (Return text,
           set_sr (fun s => mkSerial rest (wr_faults s) (fl_faults s) (tx s)) h)) /\
  (rx (sr h) = [] -> rd h = (Return "", h)).
Proof.
  split.
  - intros Hcr Hrx. rewrite (rd_text _ rest h Hrx). now rewrite strip_crlf_terminated.
  - apply rd_timeout.
Qed.

Lemma rd_line_round_trip_witness :
  fst (rd (board_on (answers ["1023" +:+ CRLF; "7" +:+ CRLF]))) = Return "1023" /\
  rd (board_on idle) = (Return "", board_on idle).
Proof.
  destruct (rd_line_round_trip "1023" [RxBytes (BText ("7" +:+ CRLF))]
              (board_on (answers ["1023" +:+ CRLF; "7" +:+ CRLF]))) as [A _].
  destruct (rd_line_round_trip "" [] (board_on idle)) as [_ B].
  split; [now rewrite (A eq_refl eq_refl) | exact (B eq_refl)].
Defined.

(** *** The two modes of write_and_flush *)

(** Everything a best-effort write does to the host. *)
Lemma write_and_flush_effect (data : string) (h : Host) :
  let h' := snd (write_and_flush data false h) in
  fst (write_and_flush data false h) = Return tt /\
  console h' = console h /\
  tx (sr h') = (if accepts (sr h) then (tx (sr h) ++ [data])%list else tx (sr h)) /\
  rx (sr h') = rx (sr h) /\
  pinModeDic h' = pinModeDic h /\ servo_pos h' = servo_pos h /\
  connected h' = connected h.
Proof.
  unfold accepts, write_and_flush, try_except, bind, sr_write, sr_flush.
  destruct h as [[l wf ff t] out pins servos c]; cbn.
  destruct wf as [|[e|] wf]; cbn; destruct ff as [|[e'|] ff]; cbn; repeat split.
Qed.

(** X4. In best-effort mode [write_and_flush] returns normally on every
    stream and prints nothing.  The frame is on the stream exactly when the
    stream took the write; a refused write drops the frame without a trace,
    and a failed flush is hidden although the frame was handed over. *)
Theorem write_and_flush_best_effort (data : string) (h : Host) :
  let h' := snd (write_and_flush data false h) in
  fst (write_and_flush data false h) = Return tt /\
  console h' = console h /\
  tx (sr h') = (if accepts (sr h) then (tx (sr h) ++ [data])%list else tx (sr h)) /\
  rx (sr h') = rx (sr h) /\
  pinModeDic h' = pinModeDic h /\ servo_pos h' = servo_pos h /\
  connected h' = connected h.
Proof. exact (write_and_flush_effect data h). Qed.

(** X5. In strict mode [write_and_flush] raises the very exception the stream
    raised, after printing the frame as [data = ...].  When the write is
    refused nothing is sent; when only the flush fails the frame is already
    on the stream.  On a stream that raises nothing it returns normally and
    prints nothing. *)
Theorem write_and_flush_strict (data : string) (l : list rx_event)
    (wf ff : list (option exn)) (t out : list string)
    (pins : gmap Z string) (servos : gmap Z Z) (c : bool) (e : exn) :
  write_and_flush data true (mkHost (mkSerial l (Some e :: wf) ff t) out pins servos c) =
    (Raise e, mkHost (mkSerial l wf ff t) (out ++ ["data = " +:+ data])%list pins servos c) /\
  write_and_flush data true (mkHost (mkSerial l (None :: wf) (Some e :: ff) t) out pins servos c) =
    (Raise e, mkHost (mkSerial l wf ff (t ++ [data])%list)
                     (out ++ ["data = " +:+ data])%list pins servos c) /\
  write_and_flush data true (mkHost (mkSerial l [] (Some e :: ff) t) out pins servos c) =
    (Raise e, mkHost (mkSerial l [] ff (t ++ [data])%list)
                     (out ++ ["data = " +:+ data])%list pins servos c) /\
  write_and_flush data true (mkHost (mkSerial l [] [] t) out pins servos c) =
    (Return tt, mkHost (mkSerial l [] [] (t ++ [data])%list) out pins servos c).
Proof. repeat split. Qed.

(** *** The version query *)

(** X6. [get_version] never raises because of the query: when the stream
    refuses the write or the flush it returns [None] and reads nothing.
    When the query goes out it returns the next line without its terminator,
    the empty text on a timeout, and it raises only what the read raises. *)
Theorem get_version_outcomes (raw : string) (l : list rx_event)
    (wf ff : list (option exn)) (t out : list string)
    (pins : gmap Z string) (servos : gmap Z Z) (c : bool) (e : exn) :
  get_version (mkHost (mkSerial l (Some e :: wf) ff t) out pins servos c) =
    (Return None, mkHost (mkSerial l wf ff t) out pins servos c) /\
  get_version (mkHost (mkSerial l [] (Some e :: ff) t) out pins servos c) =
    (Return None, mkHost (mkSerial l [] ff (t ++ ["@version%$!"])%list) out pins servos c) /\
  get_version (mkHost (mkSerial (RxBytes (BText raw) :: l) [] [] t) out pins servos c) =
    (Return (Some (strip_crlf raw)),
     mkHost (mkSerial l [] [] (t ++ ["@version%$!"])%list) out pins servos c) /\
  get_version (mkHost (mkSerial [] [] [] t) out pins servos c) =
    (Return (Some ""), mkHost (mkSerial [] [] [] (t ++ ["@version%$!"])%list) out pins servos c) /\
  get_version (mkHost (mkSerial (RxError e :: l) [] [] t) out pins servos c) =
    (Raise e, mkHost (mkSerial l [] [] (t ++ ["@version%$!"])%list) out pins servos c) /\
  get_version (mkHost (mkSerial (RxBytes BBinary :: l) [] [] t) out pins servos c) =
    (Raise UnicodeDecodeError,
     mkHost (mkSerial l [] [] (t ++ ["@version%$!"])%list) out pins servos c).
Proof. repeat split. Qed.

(** *** Pin configuration *)

(** X7. [pinMode] with a mode other than INPUT, OUTPUT or INPUT_PULLUP (in
    any letter case) raises [ValueError] naming the upper-cased value; the
    recorded directions and the stream are unchanged. *)
Theorem pinMode_invalid_mode (p : Z) (val : pyval) (h : Host) :
  str_in (upper (py_str val)) ["INPUT"; "OUTPUT"; "INPUT_PULLUP"] = false ->
  Arduino.pinMode p val h =
    (Raise (ValueError ("val: " +:+ upper (py_str val) +:+
                        " not in ('INPUT', 'OUTPUT', 'INPUT_PULLUP')")), h).
Proof. intros H. unfold Arduino.pinMode. now rewrite H. Qed.

Lemma pinMode_invalid_mode_witness :
  Arduino.pinMode 13 (PyStr "output ") (board_on idle) =
    (Raise (ValueError "val: OUTPUT  not in ('INPUT', 'OUTPUT', 'INPUT_PULLUP')"),
     board_on idle).
Proof. exact (pinMode_invalid_mode 13 (PyStr "output ") (board_on idle) eq_refl). Defined.

(** X8. [pinMode] with a valid mode records the upper-cased mode for the pin
    and leaves every other pin as it was, and it returns normally whatever
    the stream does: the direction is recorded even when the stream refuses
    the frame, in which case nothing reaches the device. *)
Theorem pinMode_records_direction (p : Z) (val : pyval) (h : Host) :
  str_in (upper (py_str val)) ["INPUT"; "OUTPUT"; "INPUT_PULLUP"] = true ->
  let h' := snd (Arduino.pinMode p val h) in
  fst (Arduino.pinMode p val h) = Return tt /\
  pinModeDic h' = <[p := upper (py_str val)]> (pinModeDic h) /\
  pinModeDic h' !! p = Some (upper (py_str val)) /\
  (forall q, q <> p -> pinModeDic h' !! q = pinModeDic h !! q) /\
  (accepts (sr h) = false -> tx (sr h') = tx (sr h)).
Proof.
  intros Hv. cbv zeta. unfold Arduino.pinMode. rewrite Hv.
  set (frame := build_cmd_str _ _).
  change ((modify (set_pinModeDic (insert p (upper (py_str val)))) ;;
           write_and_flush frame false) h)
    with (write_and_flush frame false (set_pinModeDic (insert p (upper (py_str val))) h)).
  destruct (write_and_flush_effect frame
              (set_pinModeDic (insert p (upper (py_str val))) h))
    as (R & _ & T & _ & P & _).
  cbv zeta in T, P. rewrite R, P. cbn [pinModeDic set_pinModeDic].
  split; [reflexivity|]. split; [reflexivity|].
  split; [apply lookup_insert_eq|].
  split; [intros q Hq; now apply lookup_insert_ne|].
  intros Hacc. rewrite T. cbn [sr set_pinModeDic]. now rewrite Hacc.
Qed.

Lemma pinMode_records_direction_witness :
  let refusing := mkSerial [] [Some SerialException] [] [] in
  let h' := snd (Arduino.pinMode 7 (PyStr "input_pullup") (board_on refusing)) in
  pinModeDic h' !! 7 = Some "INPUT_PULLUP" /\ tx (sr h') = [].
Proof.
  intros refusing h'.
  destruct (pinMode_records_direction 7 (PyStr "input_pullup") (board_on refusing) eq_refl)
    as (_ & _ & A & _ & B).
  split; [exact A | exact (B eq_refl)].
Defined.

(** X9. [digitalRead] and [pulseIn] demand the mode INPUT exactly: on a pin
    recorded with any other mode, INPUT_PULLUP included, they raise
    [ValueError] naming the pin and send nothing. *)
Theorem input_reads_reject_other_modes (p : Z) (mode : string) (val : pyval) (h : Host) :
  pinModeDic h !! p = Some mode ->
  mode <> "INPUT" ->
  Arduino.digitalRead p h =
    (Raise (ValueError ("pin: " +:+ str_of_Z p +:+ " not set to INPUT")), h) /\
  Arduino.pulseIn p val h =
    (Raise (ValueError ("pin: " +:+ str_of_Z p +:+ " not set to INPUT")), h).
Proof.
  intros Hm Hne. apply String.eqb_neq in Hne.
  unfold Arduino.digitalRead, Arduino.pulseIn, bind, Arduino.pinModeDic_get.
  rewrite Hm, Hne. split; reflexivity.
Qed.

Lemma input_reads_reject_other_modes_witness :
  let h := snd (Arduino.pinMode 2 (PyStr "INPUT_PULLUP") (board_on idle)) in
  fst (Arduino.digitalRead 2 h) = Raise (ValueError "pin: 2 not set to INPUT") /\
  tx (sr (snd (Arduino.pulseIn 2 (PyStr "HIGH") h))) = ["@pm%-16386$!"].
Proof.
  intros h.
  assert (Hm : pinModeDic h !! 2 = Some "INPUT_PULLUP") by (vm_compute; reflexivity).
  assert (Hne : "INPUT_PULLUP" <> "INPUT") by discriminate.
  destruct (input_reads_reject_other_modes 2 "INPUT_PULLUP" (PyStr "HIGH") h Hm Hne) as [A B].
  split; [now rewrite A | now rewrite B].
Defined.

(** X10. On a pin recorded as INPUT, [digitalRead] never raises: it returns
    the integer the device answers and 0 when the answer is missing, is not
    an integer, or the read fails; the recorded directions are unchanged. *)
Theorem digitalRead_result (p : Z) (h : Host) :
  pinModeDic h !! p = Some "INPUT" ->
  fst (Arduino.digitalRead p h) =
    Return (match next_response (sr h) ≫= py_int with Some z => z | None => 0 end).
Proof.
  intros Hm. unfold Arduino.digitalRead, bind at 1, Arduino.pinModeDic_get. rewrite Hm.
  change (negb ("INPUT" =? "INPUT")) with false. cbv beta iota zeta. unfold bind at 1.
  set (frame := build_cmd_str _ _).
  pose proof (write_and_flush_quiet frame h) as Q.
  pose proof (next_response_after_write frame false h) as N.
  destruct (write_and_flush frame false h) as [r0 h0]. cbn [fst snd] in Q, N. subst r0.
  rewrite <- N. pose proof (rd_next_response h0) as R.
  unfold try_except, bind.
  destruct (next_response (sr h0)) as [t|]; cbn [mbind option_bind].
  - destruct (rd h0) as [r1 h1]. cbn [fst] in R. subst r1.
    unfold int_of. destruct (py_int t); reflexivity.
  - destruct R as [e R]. destruct (rd h0) as [r1 h1]. cbn [fst] in R. now subst r1.
Qed.

Lemma digitalRead_result_witness :
  let h := snd (Arduino.pinMode 2 (PyStr "INPUT") (board_on (answers ["1" +:+ CRLF]))) in
  fst (Arduino.digitalRead 2 h) = Return 1.
Proof.
  intros h.
  assert (Hm : pinModeDic h !! 2 = Some "INPUT") by (vm_compute; reflexivity).
  rewrite (digitalRead_result 2 h Hm). reflexivity.
Defined.

(** X11. [analogRead] asks for no pin configuration and never raises: on
    every host and pin it returns the integer answered or 0, leaves the
    recorded directions alone, and its query is on the stream whenever the
    stream takes the write. *)
Theorem analogRead_any_pin (p : Z) (h : Host) :
  let h' := snd (Arduino.analogRead p h) in
  fst (Arduino.analogRead p h) =
    Return (match next_response (sr h) ≫= py_int with Some z => z | None => 0 end) /\
  pinModeDic h' = pinModeDic h /\
  tx (sr h') =
    (if accepts (sr h) then (tx (sr h) ++ ["@ar%" +:+ str_of_Z p +:+ "$!"])%list
     else tx (sr h)).
Proof.
  cbv zeta. split; [apply analogRead_result|].
  unfold Arduino.analogRead, bind.
  change (build_cmd_str (PyStr "ar") (Some [PyInt p])) with ("@ar%" +:+ str_of_Z p +:+ "$!").
  set (frame := "@ar%" +:+ str_of_Z p +:+ "$!").
  destruct (write_and_flush_effect frame h) as (R & _ & T & _ & P & _).
  cbv zeta in T, P. destruct (write_and_flush frame false h) as [r0 h0].
  cbn [fst snd] in R, T, P. subst r0. rewrite <- T, <- P.
  unfold try_except, bind, rd, sr_readline, decode_utf8.
  destruct h0 as [[l wf ff t] out pins servos c]; cbn.
  destruct l as [|[[raw|]|e] l]; cbn; auto.
  unfold int_of. destruct (py_int (strip_crlf raw)); cbn; auto.
Qed.

(** *** shiftOut *)

(** X12. [shiftOut] names what is wrong and sends nothing: a data pin
    recorded with another mode, then a clock pin recorded with another mode,
    then a bit order other than MSBFIRST or LSBFIRST each raise [ValueError];
    a data pin that was never configured raises the [KeyError] of the
    lookup. *)
Theorem shiftOut_rejections (dataPin clockPin value : Z) (order : pyval)
    (dmode cmode : string) (h : Host) :
  (pinModeDic h !! dataPin = None ->
   Arduino.shiftOut dataPin clockPin order value h = (Raise (KeyError (PyInt dataPin)), h)) /\
  (pinModeDic h !! dataPin = Some dmode -> dmode <> "OUTPUT" ->
   Arduino.shiftOut dataPin clockPin order value h =
     (Raise (ValueError ("pin: " +:+ str_of_Z dataPin +:+ " not initialised to OUTPUT")), h)) /\
  (pinModeDic h !! dataPin = Some "OUTPUT" ->
   pinModeDic h !! clockPin = Some cmode -> cmode <> "OUTPUT" ->
   Arduino.shiftOut dataPin clockPin order value h =
     (Raise (ValueError ("pin: " +:+ str_of_Z clockPin +:+ " not initialised to OUTPUT")), h)) /\
  (pinModeDic h !! dataPin = Some "OUTPUT" ->
   pinModeDic h !! clockPin = Some "OUTPUT" ->
   str_in (upper (py_str order)) ["MSBFIRST"; "LSBFIRST"] = false ->
   Arduino.shiftOut dataPin clockPin order value h =
     (Raise (ValueError ("pinOrder: " +:+ upper (py_str order) +:+
                         " not in ('MSBFIRST', 'LSBFIRST')")), h)).
Proof.
  split; [|split; [|split]].
  - intros Hd. unfold Arduino.shiftOut, bind, Arduino.pinModeDic_get. now rewrite Hd.
  - intros Hd Hne. apply String.eqb_neq in Hne.
    unfold Arduino.shiftOut, bind, Arduino.pinModeDic_get, ret. rewrite Hd, Hne.
    cbv beta iota. rewrite Hd, Hne. reflexivity.
  - intros Hd Hc Hne. apply String.eqb_neq in Hne.
    unfold Arduino.shiftOut, bind, Arduino.pinModeDic_get, ret.
    repeat progress (rewrite ?Hd, ?Hc, ?Hne;
                     change (String.eqb "OUTPUT" "OUTPUT") with true;
                     cbn [andb negb]; cbv beta iota).
    reflexivity.
  - intros Hd Hc Ho.
    unfold Arduino.shiftOut, bind, Arduino.pinModeDic_get, ret.
    repeat progress (rewrite ?Hd, ?Hc, ?upper_idem, ?Ho;
                     change (String.eqb "OUTPUT" "OUTPUT") with true;
                     cbn [andb negb]; cbv beta iota).
    reflexivity.
Qed.

Lemma shiftOut_rejections_witness :
  let h0 := board_on idle in
  let h1 := snd (Arduino.pinMode 8 (PyStr "INPUT") h0) in
  let h2 := snd (Arduino.pinMode 9 (PyStr "INPUT") (snd (Arduino.pinMode 8 (PyStr "OUTPUT") h0))) in
  let h3 := snd (Arduino.pinMode 9 (PyStr "OUTPUT") (snd (Arduino.pinMode 8 (PyStr "OUTPUT") h0))) in
  fst (Arduino.shiftOut 8 9 (PyStr "MSBFIRST") 1 h0) = Raise (KeyError (PyInt 8)) /\
  fst (Arduino.shiftOut 8 9 (PyStr "MSBFIRST") 1 h1) =
    Raise (ValueError "pin: 8 not initialised to OUTPUT") /\
  fst (Arduino.shiftOut 8 9 (PyStr "MSBFIRST") 1 h2) =
    Raise (ValueError "pin: 9 not initialised to OUTPUT") /\
  fst (Arduino.shiftOut 8 9 (PyStr "msb") 1 h3) =
    Raise (ValueError "pinOrder: MSB not in ('MSBFIRST', 'LSBFIRST')").
Proof.
  intros h0 h1 h2 h3.
  destruct (shiftOut_rejections 8 9 1 (PyStr "MSBFIRST") "INPUT" "INPUT" h0) as (A & _).
  destruct (shiftOut_rejections 8 9 1 (PyStr "MSBFIRST") "INPUT" "INPUT" h1) as (_ & B & _).
  destruct (shiftOut_rejections 8 9 1 (PyStr "MSBFIRST") "INPUT" "INPUT" h2) as (_ & _ & C & _).
  destruct (shiftOut_rejections 8 9 1 (PyStr "msb") "INPUT" "INPUT" h3) as (_ & _ & _ & D).
  assert (N : "INPUT" <> "OUTPUT") by discriminate.
  rewrite (A ltac:(vm_compute; reflexivity)).
  rewrite (B ltac:(vm_compute; reflexivity) N).
  rewrite (C ltac:(vm_compute; reflexivity) ltac:(vm_compute; reflexivity) N).
  rewrite (D ltac:(vm_compute; reflexivity) ltac:(vm_compute; reflexivity) eq_refl).
  repeat split.
Defined.

Lemma shiftOut_sends (dataPin clockPin value : Z) (order : pyval) (h : Host) :
  pinModeDic h !! dataPin = Some "OUTPUT" ->
  pinModeDic h !! clockPin = Some "OUTPUT" ->
  upper (py_str order) = "MSBFIRST" \/ upper (py_str order) = "LSBFIRST" ->
  Arduino.shiftOut dataPin clockPin order value h =
    write_and_flush
      (build_cmd_str (PyStr "so")
         (Some [PyInt dataPin; PyInt clockPin; PyStr (upper (py_str order));
                PyInt (clamp_byte value)])) true h.
Proof.
  intros Hd Hc Ho.
  assert (V : str_in (upper (py_str order)) ["MSBFIRST"; "LSBFIRST"] = true)
    by (destruct Ho as [-> | ->]; reflexivity).
  unfold Arduino.shiftOut, bind, Arduino.pinModeDic_get, ret.
  repeat progress (rewrite ?Hd, ?Hc, ?upper_idem, ?V;
                   change (String.eqb "OUTPUT" "OUTPUT") with true;
                   cbn [andb negb]; cbv beta iota zeta).
  now rewrite clamp_lo_first.
Qed.

Lemma analogWrite_sends (p v : Z) (h : Host) :
  pinModeDic h !! p = Some "OUTPUT" ->
  Arduino.analogWrite p v h =
    write_and_flush
      (build_cmd_str (PyStr "aw") (Some [PyInt p; PyInt (clamp_byte v)])) false h.
Proof.
  intros Hout. unfold Arduino.analogWrite, bind, Arduino.pinModeDic_get. rewrite Hout.
  change (negb ("OUTPUT" =? "OUTPUT")) with false.
  cbv beta iota zeta. now rewrite clamp_hi_first.
Qed.

(** X13. [shiftOut] writes in strict mode: on correctly configured pins, a
    write that the stream refuses makes [shiftOut] raise the exception of the
    stream after printing the frame, whereas [analogWrite] on the same host
    returns normally; neither sends anything. *)
Theorem shiftOut_strict_analogWrite_lenient (dataPin clockPin value : Z) (order : pyval)
    (e : exn) (h : Host) (w : list (option exn)) :
  pinModeDic h !! dataPin = Some "OUTPUT" ->
  pinModeDic h !! clockPin = Some "OUTPUT" ->
  upper (py_str order) = "MSBFIRST" \/ upper (py_str order) = "LSBFIRST" ->
  wr_faults (sr h) = Some e :: w ->
  let frame :=
    build_cmd_str (PyStr "so")
      (Some [PyInt dataPin; PyInt clockPin; PyStr (upper (py_str order));
             PyInt (clamp_byte value)]) in
  fst (Arduino.shiftOut dataPin clockPin order value h) = Raise e /\
  tx (sr (snd (Arduino.shiftOut dataPin clockPin order value h))) = tx (sr h) /\
  console (snd (Arduino.shiftOut dataPin clockPin order value h)) =
    (console h ++ ["data = " +:+ frame])%list /\
  fst (Arduino.analogWrite dataPin value h) = Return tt /\
  tx (sr (snd (Arduino.analogWrite dataPin value h))) = tx (sr h) /\
  console (snd (Arduino.analogWrite dataPin value h)) = console h.
Proof.
  intros Hd Hc Ho Hw frame.
  rewrite (analogWrite_sends dataPin value h Hd).
  rewrite (shiftOut_sends dataPin clockPin value order h Hd Hc Ho). fold frame.
  destruct h as [[l wf ff t] out pins servos c]. cbn [sr wr_faults] in Hw. subst wf.
  repeat split.
Qed.

Lemma shiftOut_strict_analogWrite_lenient_witness :
  let dead := mkSerial [] [None; None; Some SerialException] [] [] in
  let h := snd (Arduino.pinMode 9 (PyStr "OUTPUT")
                 (snd (Arduino.pinMode 8 (PyStr "OUTPUT") (board_on dead)))) in
  fst (Arduino.shiftOut 8 9 (PyStr "LSBFIRST") 300 h) = Raise SerialException /\
  fst (Arduino.analogWrite 8 300 h) = Return tt.
Proof.
  intros dead h.
  destruct (shiftOut_strict_analogWrite_lenient 8 9 300 (PyStr "LSBFIRST")
              SerialException h []
              ltac:(vm_compute; reflexivity) ltac:(vm_compute; reflexivity)
              (or_intror eq_refl) ltac:(vm_compute; reflexivity))
    as (A & _ & _ & B & _).
  split; [exact A | exact B].
Defined.

(** *** Melody *)

Lemma Melody_on_output (pin : Z) (melody durations : pyseq) (h : Host) :
  pinModeDic h !! pin = Some "OUTPUT" ->
  Melody pin melody durations h =
  match melody, durations with
  | PyList m, PyList d =>
      if (Z.of_nat (length m) =? Z.of_nat (length d))%Z then
        (write_and_flush
           (build_cmd_str (PyStr "to")
              (Some ([PyInt (Z.of_nat (length m)); PyInt pin] ++ map NOTES_get m ++ d)%list))
           false ;;
         write_and_flush (build_cmd_str (PyStr "nto") (Some [PyInt pin])) false ;;
         ret PyNone) h
      else (Return (PyInt (-1)), h)
  | _, _ => (Return (PyInt (-1)), h)
  end.
Proof.
  intros Hm. unfold Melody, bind at 1, Arduino.pinModeDic_get. rewrite Hm.
  change (negb ("OUTPUT" =? "OUTPUT")) with false. cbv beta iota.
  destruct melody as [m|], durations as [d|]; try reflexivity.
  cbv zeta. rewrite <- app_assoc.
  destruct (Z.of_nat (length m) =? Z.of_nat (length d))%Z; reflexivity.
Qed.

(** X14. [Melody] refuses, by returning [-1] with nothing sent and the host
    unchanged, a melody and a duration list of different lengths, and any
    argument that is not a list; it checks the pin first, so on a pin not
    recorded as OUTPUT it raises instead. *)
Theorem Melody_rejections (pin : Z) (m d : list pyval) (other : pyseq) (mode : string)
    (h : Host) :
  (pinModeDic h !! pin = Some "OUTPUT" ->
   (length m <> length d ->
    Melody pin (PyList m) (PyList d) h = (Return (PyInt (-1)), h)) /\
   Melody pin NotAList other h = (Return (PyInt (-1)), h) /\
   Melody pin other NotAList h = (Return (PyInt (-1)), h)) /\
  (pinModeDic h !! pin = Some mode -> mode <> "OUTPUT" ->
   Melody pin (PyList m) (PyList d) h =
     (Raise (ValueError ("pin: " +:+ str_of_Z pin +:+ " not initialised to OUTPUT")), h)) /\
  (pinModeDic h !! pin = None ->
   Melody pin (PyList m) (PyList d) h = (Raise (KeyError (PyInt pin)), h)).
Proof.
  split; [|split].
  - intros Hm. split; [|split].
    + intros Hl. rewrite (Melody_on_output _ _ _ _ Hm).
      destruct (Z.eqb_spec (Z.of_nat (length m)) (Z.of_nat (length d))) as [E|]; [|reflexivity].
      apply Nat2Z.inj in E. contradiction.
    + rewrite (Melody_on_output _ _ _ _ Hm). reflexivity.
    + rewrite (Melody_on_output _ _ _ _ Hm). now destruct other.
  - intros Hm Hne. apply String.eqb_neq in Hne.
    unfold Melody, bind, Arduino.pinModeDic_get. now rewrite Hm, Hne.
  - intros Hm. unfold Melody, bind, Arduino.pinModeDic_get. now rewrite Hm.
Qed.

Lemma Melody_rejections_witness :
  let h := snd (Arduino.pinMode 9 (PyStr "OUTPUT") (board_on idle)) in
  Melody 9 (PyList [PyStr "C4"; PyStr "G3"]) (PyList [PyInt 4]) h = (Return (PyInt (-1)), h) /\
  fst (Melody 10 (PyList []) (PyList []) h) = Raise (KeyError (PyInt 10)).
Proof.
  intros h.
  destruct (Melody_rejections 9 [PyStr "C4"; PyStr "G3"] [PyInt 4] NotAList "INPUT" h)
    as (A & _ & _).
  destruct (Melody_rejections 10 [] [] NotAList "INPUT" h) as (_ & _ & C).
  destruct (A ltac:(vm_compute; reflexivity)) as (A1 & _).
  split; [apply A1; discriminate | now rewrite (C ltac:(vm_compute; reflexivity))].
Defined.

(** X15. On an OUTPUT pin and with lists of equal length, [Melody] returns
    nothing and, on a stream that takes both writes, sends exactly two
    frames: the tune [to] carrying the length, the pin, one entry per note
    and one per duration, then [nto] for the pin.  A note that is not a key
    of the table, such as a rest written [0], is sent as the text [None]. *)
Theorem Melody_frames (pin : Z) (m d : list pyval) (h : Host) :
  pinModeDic h !! pin = Some "OUTPUT" ->
  length m = length d ->
  wr_faults (sr h) = [] ->
  let tune :=
    build_cmd_str (PyStr "to")
      (Some ([PyInt (Z.of_nat (length m)); PyInt pin] ++ map NOTES_get m ++ d)%list) in
  let h' := snd (Melody pin (PyList m) (PyList d) h) in
  fst (Melody pin (PyList m) (PyList d) h) = Return PyNone /\
  tx (sr h') = (tx (sr h) ++ [tune; "@nto%" +:+ str_of_Z pin +:+ "$!"])%list /\
  pinModeDic h' = pinModeDic h /\
  (forall key, (forall name, key <> PyStr name) -> NOTES_get key = PyNone) /\
  NOTES_get (PyStr "A4") = PyInt 440.
Proof.
  intros Hm Hl Hw tune h'. subst h'.
  rewrite (Melody_on_output _ _ _ _ Hm). rewrite Hl, Z.eqb_refl. rewrite <- Hl. fold tune.
  split; [|split; [|split; [|split]]].
  - unfold bind. pose proof (write_and_flush_quiet tune h) as Q1.
    destruct (write_and_flush tune false h) as [r1 h1]. cbn [fst] in Q1. subst r1.
    pose proof (write_and_flush_quiet (build_cmd_str (PyStr "nto") (Some [PyInt pin])) h1) as Q2.
    destruct (write_and_flush _ false h1) as [r2 h2]. cbn [fst] in Q2. now subst r2.
  - destruct h as [[l wf ff t] out pins servos c]. cbn [sr wr_faults] in Hw. subst wf.
    unfold bind, write_and_flush, try_except, sr_write, sr_flush; cbn.
    destruct ff as [|[e|] [|[e'|] ff]]; cbn; now rewrite <- app_assoc.
  - unfold bind.
    destruct (write_and_flush_effect tune h) as (Q1 & _ & _ & _ & P1 & _).
    cbv zeta in P1.
    destruct (write_and_flush tune false h) as [r1 h1]. cbn [fst snd] in Q1, P1. subst r1.
    destruct (write_and_flush_effect (build_cmd_str (PyStr "nto") (Some [PyInt pin])) h1)
      as (Q2 & _ & _ & _ & P2 & _).
    cbv zeta in P2.
    destruct (write_and_flush _ false h1) as [r2 h2]. cbn [fst snd] in Q2, P2. subst r2.
    cbn [snd ret]. congruence.
  - intros key Hk. destruct key as [| | |name]; try reflexivity. now elim (Hk name).
  - vm_compute. reflexivity.
Qed.

Lemma Melody_frames_witness :
  let h := snd (Arduino.pinMode 9 (PyStr "OUTPUT") (board_on idle)) in
  tx (sr (snd (Melody 9 (PyList [PyStr "C4"; PyInt 0; PyStr "G3"])
                        (PyList [PyInt 4; PyInt 8; PyInt 8]) h))) =
    ["@pm%9$!"; "@to%3%9%262%None%196%4%8%8$!"; "@nto%9$!"].
Proof.
  intros h.
  destruct (Melody_frames 9 [PyStr "C4"; PyInt 0; PyStr "G3"] [PyInt 4; PyInt 8; PyInt 8] h
              ltac:(vm_compute; reflexivity) eq_refl eq_refl) as (_ & T & _).
  rewrite T. vm_compute. reflexivity.
Defined.

(** *** capacitivePin *)



(** *** EEPROM *)

(** X17. [EEPROM.write] never raises and clamps the value to 0..255 before
    encoding: it is one best-effort write of the frame
    [eewr] with the address and the clamped value. *)
Theorem EEPROM_write_clamps (address value : Z) (h : Host) :
  let frame := "@eewr%" +:+ str_of_Z address +:+ "%" +:+ str_of_Z (clamp_byte value) +:+ "$!" in
  let h' := snd (EEPROM.write address value h) in
  fst (EEPROM.write address value h) = Return tt /\
  0 <= clamp_byte value <= 255 /\
  tx (sr h') = (if accepts (sr h) then (tx (sr h) ++ [frame])%list else tx (sr h)).
Proof.
  cbv zeta.
  assert (E : EEPROM.write address value h =
              write_and_flush ("@eewr%" +:+ str_of_Z address +:+ "%" +:+
                               str_of_Z (clamp_byte value) +:+ "$!") false h).
  { unfold EEPROM.write. rewrite clamp_hi_first. unfold build_cmd_str.
    cbn [map py_str str_join]. f_equal. cbn. now rewrite !append_assoc. }
  rewrite E.
  destruct (write_and_flush_effect
              ("@eewr%" +:+ str_of_Z address +:+ "%" +:+ str_of_Z (clamp_byte value) +:+ "$!") h)
    as (R & _ & T & _).
  split; [exact R|]. split; [apply clamp_byte_range | exact T].
Qed.

(** X18. [EEPROM.size] never raises.  It returns the integer the device
    answers when the query went out, and 0 in every other case: the stream
    refused the write or the flush, the read failed or timed out, or the
    answer is not an integer. *)
Theorem EEPROM_size_outcomes (raw : string) (l : list rx_event)
    (wf ff : list (option exn)) (t out : list string)
    (pins : gmap Z string) (servos : gmap Z Z) (c : bool) (e : exn) :
  fst (EEPROM.size (mkHost (mkSerial l (Some e :: wf) ff t) out pins servos c)) = Return 0 /\
  fst (EEPROM.size (mkHost (mkSerial l [] (Some e :: ff) t) out pins servos c)) = Return 0 /\
  fst (EEPROM.size (mkHost (mkSerial (RxBytes (BText raw) :: l) [] [] t) out pins servos c)) =
    Return (match py_int (strip_crlf raw) with Some n => n | None => 0 end) /\
  fst (EEPROM.size (mkHost (mkSerial [] [] [] t) out pins servos c)) = Return 0 /\
  fst (EEPROM.size (mkHost (mkSerial (RxError e :: l) [] [] t) out pins servos c)) = Return 0 /\
  fst (EEPROM.size (mkHost (mkSerial (RxBytes BBinary :: l) [] [] t) out pins servos c)) = Return 0.
Proof.
  repeat split.
  unfold EEPROM.size, try_except, bind, call_write_and_flush, write_and_flush, try_except,
    bind, sr_write, sr_flush, rd, sr_readline, decode_utf8, int_of; cbn.
  destruct (py_int (strip_crlf raw)); reflexivity.
Qed.

(** *** Servos: edge cases *)

Lemma attach_loop_silence cmd : forall fuel h,
  wr_faults (sr h) = [] -> fl_faults (sr h) = [] ->
  forallb silent (rx (sr h)) = true ->
  fst (Servos.attach_loop fuel cmd h) = Diverge.
Proof.
  induction fuel as [|fuel IH]; intros h Hw Hf Hs; [reflexivity|].
  rewrite attach_loop_S.
  destruct h as [[l wf ff t] out pins servos c]. cbn [sr wr_faults fl_faults rx] in *.
  subst wf ff.
  destruct l as [|[[raw|]|e] l]; cbn in Hs; try discriminate.
  - cbn. apply IH; reflexivity.
  - apply andb_prop in Hs. destruct Hs as [Hraw Hl].
    unfold write_and_flush, try_except, bind, sr_write, sr_flush, rd, sr_readline,
      decode_utf8, ret; cbn.
    apply negb_true_iff in Hraw. rewrite Hraw. apply IH; try reflexivity. exact Hl.
Qed.

(** X19. [Servos.attach] has no way out while the device stays silent: on a
    stream that raises nothing and delivers only empty lines or nothing at
    all, no number of polling rounds ends the loop, so the call never
    returns. *)
Theorem attach_never_returns_on_silence (p mn mx : Z) (h : Host) :
  wr_faults (sr h) = [] -> fl_faults (sr h) = [] ->
  forallb silent (rx (sr h)) = true ->
  (forall fuel cmd, fst (Servos.attach_loop fuel cmd h) = Diverge) /\
  fst (Servos.attach p mn mx h) = Diverge.
Proof.
  intros Hw Hf Hs. split.
  - intros fuel cmd. now apply attach_loop_silence.
  - unfold Servos.attach, bind at 1, get. cbv beta iota. unfold bind at 1.
    pose proof (attach_loop_silence
      (build_cmd_str (PyStr "sva") (Some [PyInt p; PyInt mn; PyInt mx]))
      (S (pending (sr h))) h Hw Hf Hs) as D.
    destruct (Servos.attach_loop _ _ h) as [r0 h0]. cbn [fst] in D. now subst r0.
Qed.

Lemma attach_never_returns_on_silence_witness :
  fst (Servos.attach 9 544 2400 (board_on (answers [""; CRLF]))) = Diverge /\
  fst (Servos.attach 9 544 2400 (board_on idle)) = Diverge.
Proof.
  split.
  - exact (proj2 (attach_never_returns_on_silence 9 544 2400
                    (board_on (answers [""; CRLF])) eq_refl eq_refl eq_refl)).
  - exact (proj2 (attach_never_returns_on_silence 9 544 2400
                    (board_on idle) eq_refl eq_refl eq_refl)).
Defined.

(** X20. When the first non-empty answer to [Servos.attach] is not an
    integer, the call raises the [ValueError] of [int()] and creates no
    binding. *)
Theorem attach_rejects_non_integer (p mn mx : Z) (response : string) (h : Host) :
  wr_faults (sr h) = [] -> fl_faults (sr h) = [] ->
  first_reply (rx (sr h)) = Some response ->
  py_int response = None ->
  fst (Servos.attach p mn mx h) = Raise (ValueError "invalid literal for int() with base 10") /\
  servo_pos (snd (Servos.attach p mn mx h)) = servo_pos h.
Proof.
  intros Hw Hf Hr Hp.
  destruct (attach_loop_answers
              (build_cmd_str (PyStr "sva") (Some [PyInt p; PyInt mn; PyInt mx]))
              response (rx (sr h)) h (S (pending (sr h))) eq_refl Hw Hf Hr)
    as [h0 L]; [unfold pending; lia|].
  assert (E : Servos.attach p mn mx h =
              (Raise (ValueError "invalid literal for int() with base 10"), h0)).
  { unfold Servos.attach, bind at 1, get. cbv beta iota. unfold bind at 1.
    rewrite L. unfold int_of, bind. now rewrite Hp. }
  rewrite E. apply attach_loop_returns in L. destruct L as (_ & S1 & _).
  split; [reflexivity | exact S1].
Qed.

Lemma attach_rejects_non_integer_witness :
  let h := board_on (answers ["error" +:+ CRLF]) in
  fst (Servos.attach 9 544 2400 h) = Raise (ValueError "invalid literal for int() with base 10") /\
  servo_pos (snd (Servos.attach 9 544 2400 h)) = ∅.
Proof.
  intros h.
  destruct (attach_rejects_non_integer 9 544 2400 "error" h eq_refl eq_refl eq_refl eq_refl)
    as [A B].
  split; [exact A | rewrite B; reflexivity].
Defined.

(** X21. On a pin without a binding, [Servos.detach] and
    [Servos.writeMicroseconds] raise the [KeyError] of the lookup and leave
    the host, the stream included, unchanged. *)
Theorem servo_unbound_pin (p : Z) (uS : pyval) (h : Host) :
  servo_pos h !! p = None ->
  Servos.detach p h = (Raise (KeyError (PyInt p)), h) /\
  Servos.writeMicroseconds p uS h = (Raise (KeyError (PyInt p)), h).
Proof.
  intros Hb. unfold Servos.detach, Servos.writeMicroseconds, bind, Servos.servo_pos_get.
  rewrite Hb. split; reflexivity.
Qed.

Lemma servo_unbound_pin_witness :
  Servos.detach 9 (board_on idle) = (Raise (KeyError (PyInt 9)), board_on idle).
Proof.
  exact (proj1 (servo_unbound_pin 9 PyNone (board_on idle) ltac:(vm_compute; reflexivity))).
Defined.

(** X22. On a bound pin [Servos.read] does not attach again and never
    raises: it queries the handle and returns the integer answered, or
    nothing ([None]) when the answer is missing, is not an integer, or the
    read fails; the bindings are unchanged. *)
Theorem servo_read_bound (p position : Z) (h : Host) :
  servo_pos h !! p = Some position ->
  let h' := snd (Servos.read p h) in
  fst (Servos.read p h) =
    Return (match next_response (sr h) ≫= py_int with
            | Some angle => PyInt angle
            | None => PyNone
            end) /\
  servo_pos h' = servo_pos h /\
  tx (sr h') =
    (if accepts (sr h) then (tx (sr h) ++ ["@svr%" +:+ str_of_Z position +:+ "$!"])%list
     else tx (sr h)).
Proof.
  intros Hb. cbv zeta.
  set (frame := "@svr%" +:+ str_of_Z position +:+ "$!").
  assert (E : Servos.read p h =
    (write_and_flush frame false ;;
     try_except (t <- rd ;; angle <- int_of (PyStr t) ;; ret (PyInt angle))
                (fun _ => ret PyNone)) h).
  { unfold Servos.read, bind at 1, get. cbv beta iota.
    rewrite bool_decide_eq_true_2 by (rewrite Hb; eauto).
    unfold bind at 1, ret. cbv beta iota.
    unfold bind at 1, Servos.servo_pos_get. rewrite Hb. reflexivity. }
  rewrite E. clear E. set (K := try_except _ _). unfold bind.
  destruct (write_and_flush_effect frame h) as (R & _ & T & _ & _ & S1 & _).
  cbv zeta in T, S1.
  assert (N : next_response (sr (snd (write_and_flush frame false h))) = next_response (sr h))
    by apply next_response_after_write.
  destruct (write_and_flush frame false h) as [r0 h0].
  cbn [fst snd] in R, T, S1, N. subst r0. rewrite <- T, <- S1, <- N.
  subst K. unfold next_response, try_except, bind, rd, sr_readline, decode_utf8.
  destruct h0 as [[l wf ff t] out pins servos c]; cbn.
  destruct l as [|[[raw|]|e] l]; cbn; auto.
  unfold int_of. destruct (py_int (strip_crlf raw)); cbn; auto.
Qed.

Lemma servo_read_bound_witness :
  let h := set_servo_pos (insert 9 0) (board_on (answers ["90" +:+ CRLF])) in
  fst (Servos.read 9 h) = Return (PyInt 90) /\
  tx (sr (snd (Servos.read 9 h))) = ["@svr%0$!"].
Proof.
  intros h.
  destruct (servo_read_bound 9 0 h ltac:(vm_compute; reflexivity)) as (A & _ & T).
  split; [exact A | exact T].
Defined.

(** X23. On a pin without a binding [Servos.read] first attaches with the
    default pulse limits 544 and 2400: when that attach returns, the read
    continues as a read on the host the attach left; when the attach raises
    or never returns, so does the read. *)
Theorem servo_read_attaches_first (p : Z) (h h1 : Host) (r : Z) (e : exn) :
  servo_pos h !! p = None ->
  (Servos.attach p 544 2400 h = (Return r, h1) -> Servos.read p h = Servos.read p h1) /\
  (Servos.attach p 544 2400 h = (Raise e, h1) -> Servos.read p h = (Raise e, h1)) /\
  (Servos.attach p 544 2400 h = (Diverge, h1) -> Servos.read p h = (Diverge, h1)).
Proof.
  intros Hb.
  assert (U : Servos.read p h =
    (Servos.attach p 544 2400 ;;
     position <- Servos.servo_pos_get p ;;
     write_and_flush (build_cmd_str (PyStr "svr") (Some [PyInt position])) false ;;
     try_except (t <- rd ;; angle <- int_of (PyStr t) ;; ret (PyInt angle))
                (fun _ => ret PyNone)) h).
  { unfold Servos.read, bind at 1, get. cbv beta iota.
    rewrite bool_decide_eq_false_2; [reflexivity|].
    rewrite Hb. intros [x Hx]. discriminate. }
  split; [|split].
  - intros A.
    destruct (attach_returns _ _ _ _ _ _ A) as (_ & resp & position & _ & _ & B).
    assert (Hb1 : servo_pos h1 !! p = Some position) by (rewrite B; apply lookup_insert_eq).
    assert (U1 : Servos.read p h1 =
      (position <- Servos.servo_pos_get p ;;
       write_and_flush (build_cmd_str (PyStr "svr") (Some [PyInt position])) false ;;
       try_except (t <- rd ;; angle <- int_of (PyStr t) ;; ret (PyInt angle))
                  (fun _ => ret PyNone)) h1).
    { unfold Servos.read, bind at 1, get. cbv beta iota.
      rewrite bool_decide_eq_true_2 by (rewrite Hb1; eauto). reflexivity. }
    rewrite U, U1. unfold bind at 1. now rewrite A.
  - intros A. rewrite U. unfold bind at 1. now rewrite A.
  - intros A. rewrite U. unfold bind at 1. now rewrite A.
Qed.

Lemma servo_read_attaches_first_witness :
  let h := board_on (answers ["2" +:+ CRLF; "45" +:+ CRLF]) in
  fst (Servos.read 9 h) = Return (PyInt 45) /\
  servo_pos (snd (Servos.read 9 h)) !! 9 = Some 2 /\
  tx (sr (snd (Servos.read 9 h))) = ["@sva%9%544%2400$!"; "@svr%2$!"].
Proof.
  intros h.
  destruct (servo_read_attaches_first 9 h (snd (Servos.attach 9 544 2400 h)) 1
              SerialException ltac:(vm_compute; reflexivity)) as (A & _).
  rewrite (A ltac:(vm_compute; reflexivity)).
  vm_compute. repeat split.
Defined.

(** *** Software serial while connected *)

(** X24. While connected, [SoftwareSerial.write] sends the data and returns
    true exactly when the device acknowledges with [ss OK]; otherwise it
    returns nothing ([None]), never false.  It never raises because of the
    write, and it leaves the channel connected whatever the answer. *)
Theorem software_serial_write_connected (data : pyval) (h : Host) :
  connected h = true ->
  let h' := snd (SoftwareSerial.write data h) in
  match next_response (sr h) with
  | Some t =>
      fst (SoftwareSerial.write data h) =
        Return (if String.eqb t "ss OK" then PyBool true else PyNone)
  | None => exists e, fst (SoftwareSerial.write data h) = Raise e
  end /\
  connected h' = true /\
  tx (sr h') =
    (if accepts (sr h) then (tx (sr h) ++ [build_cmd_str (PyStr "sw") (Some [data])])%list
     else tx (sr h)).
Proof.
  intros Hc. cbv zeta.
  set (frame := build_cmd_str (PyStr "sw") (Some [data])).
  assert (E : SoftwareSerial.write data h =
    (write_and_flush frame false ;;
     response <- rd ;;
     if String.eqb response "ss OK" then ret (PyBool true) else ret PyNone) h).
  { unfold SoftwareSerial.write, bind at 1, get. now rewrite Hc. }
  rewrite E. clear E. set (K := bind rd _). unfold bind.
  destruct (write_and_flush_effect frame h) as (R & _ & T & _ & _ & _ & C).
  cbv zeta in T, C.
  assert (N : next_response (sr (snd (write_and_flush frame false h))) = next_response (sr h))
    by apply next_response_after_write.
  destruct (write_and_flush frame false h) as [r0 h0].
  cbn [fst snd] in R, T, C, N. subst r0.
  assert (G : match next_response (sr h0) with
              | Some t =>
                  fst (K h0) = Return (if String.eqb t "ss OK" then PyBool true else PyNone)
              | None => exists e, fst (K h0) = Raise e
              end /\
              connected (snd (K h0)) = connected h0 /\
              tx (sr (snd (K h0))) = tx (sr h0)).
  { subst K. unfold next_response, bind, rd, sr_readline, decode_utf8.
    destruct h0 as [[l wf ff t] out pins servos c]; cbn.
    destruct l as [|[[raw|]|e] l]; cbn; eauto.
    destruct (String.eqb (strip_crlf raw) "ss OK"); cbn; auto. }
  destruct G as (G1 & G2 & G3).
  rewrite N in G1. rewrite G2, G3, C, T. auto.
Qed.

Lemma software_serial_write_connected_witness :
  let h := snd (SoftwareSerial.begin 10 11 9600
                  (board_on (answers ["ss OK" +:+ CRLF; "ss OK" +:+ CRLF]))) in
  fst (SoftwareSerial.write (PyStr "hi") h) = Return (PyBool true) /\
  fst (SoftwareSerial.write (PyStr "hi") (snd (SoftwareSerial.write (PyStr "hi") h))) =
    Return PyNone /\
  connected (snd (SoftwareSerial.write (PyStr "hi") (snd (SoftwareSerial.write (PyStr "hi") h)))) =
    true.
Proof.
  intros h.
  destruct (software_serial_write_connected (PyStr "hi") h eq_refl) as (A & _).
  destruct (software_serial_write_connected (PyStr "hi")
              (snd (SoftwareSerial.write (PyStr "hi") h)) eq_refl) as (B & C & _).
  split; [exact A | split; [exact B | exact C]].
Defined.

(** X25. While connected, [SoftwareSerial.read] writes its query in strict
    mode: a refused write raises the exception of the stream after printing
    the frame.  When the query goes out it returns the text answered, and
    nothing ([None]) on an empty answer or a timeout; it does not change the
    connection state. *)
Theorem software_serial_read_connected (raw : string) (l : list rx_event)
    (wf ff : list (option exn)) (t out : list string)
    (pins : gmap Z string) (servos : gmap Z Z) (e : exn) :
  SoftwareSerial.read (mkHost (mkSerial l (Some e :: wf) ff t) out pins servos true) =
    (Raise e, mkHost (mkSerial l wf ff t) (out ++ ["data = @sr%$!"])%list pins servos true) /\
  SoftwareSerial.read (mkHost (mkSerial (RxBytes (BText raw) :: l) [] [] t) out pins servos true) =
    (Return (if nonempty (strip_crlf raw) then PyStr (strip_crlf raw) else PyNone),
     mkHost (mkSerial l [] [] (t ++ ["@sr%$!"])%list) out pins servos true) /\
  SoftwareSerial.read (mkHost (mkSerial [] [] [] t) out pins servos true) =
    (Return PyNone, mkHost (mkSerial [] [] [] (t ++ ["@sr%$!"])%list) out pins servos true).
Proof.
  split; [reflexivity|]. split; [|reflexivity].
  unfold SoftwareSerial.read, bind, get, call_write_and_flush, write_and_flush, try_except,
    bind, sr_write, sr_flush, rd, sr_readline, decode_utf8, ret; cbn.
  destruct (nonempty (strip_crlf raw)); reflexivity.
Qed.

(** *** Port discovery *)

(** The probe does not look at the console and prints nothing. *)
Lemma probe_spec s out :
  (sr_readline ;; get_version) (mkHost s out ∅ ∅ false) =
  (fst (probe s), mkHost (snd (probe s)) out ∅ ∅ false).
Proof.
  unfold probe.
  destruct s as [l wf ff t].
  destruct l as [|[[?|]|?] [|[[?|]|?] ?]]; destruct wf as [|[?|] ?];
    destruct ff as [|[?|] ?]; reflexivity.
Qed.

(** One step of the scan on a candidate that opens. *)
Lemma find_port_step s cs w :
  find_port (Some s :: cs) w =
  match probe s with
  | (Return v, s') =>
      match verdict v with
      | Some warn =>
          (Return (Some s'),
           mkScan (scan_console w ++
                   (if warn then version_warning (default "" v) else []))%list
                  (scan_closed w))
      | None => find_port cs (mkScan (scan_console w) (scan_closed w ++ [s'])%list)
      end
  | (Raise e, s') => (Raise e, mkScan (scan_console w) (scan_closed w))
  | (Diverge, s') => (Diverge, mkScan (scan_console w) (scan_closed w))
  end.
Proof.
  cbn [find_port]. rewrite probe_spec.
  destruct (probe s) as [[v| |] s']; cbn [fst snd sr console]; try reflexivity.
  destruct v as [x|]; [|reflexivity].
  unfold verdict. rewrite looks_like_version_spec.
  destruct (String.eqb x libraryVersion); cbn [negb].
  - now rewrite app_nil_r.
  - destruct x as [|c r]; [reflexivity|].
    destruct (String.eqb (String c "") "V" || String.eqb (String c r) "version");
      [|reflexivity].
    unfold print, modify, bind, set_console, version_warning; cbn [fst snd sr console default].
    now rewrite <- !app_assoc.
Qed.

Lemma closed_streams_some s cs :
  closed_streams (Some s :: cs) = snd (probe s) :: closed_streams cs.
Proof. reflexivity. Qed.

Lemma closed_streams_none cs : closed_streams (None :: cs) = closed_streams cs.
Proof. reflexivity. Qed.

(** The scan over candidates that are all passed over, followed by more. *)
Lemma find_port_skip pre : forall rest w,
  forallb passed_over pre = true ->
  find_port (pre ++ rest) w =
  find_port rest (mkScan (scan_console w) (scan_closed w ++ closed_streams pre)%list).
Proof.
  induction pre as [|[c|] pre IH]; intros rest w H.
  - cbn [app]. change (closed_streams []) with (@nil Serial).
    rewrite app_nil_r. now destruct w.
  - cbn [forallb] in H. apply andb_prop in H. destruct H as [Hc Hrest].
    cbn [app]. rewrite find_port_step, closed_streams_some. unfold passed_over in Hc.
    destruct (probe c) as [[x| |] c']; try discriminate Hc.
    destruct (verdict x); [discriminate Hc|].
    rewrite (IH rest _ Hrest). cbn [scan_console scan_closed snd].
    now rewrite <- app_assoc.
  - cbn [forallb] in H. cbn [app find_port]. rewrite closed_streams_none. now apply IH.
Qed.

(** X26. When every candidate either fails to open or reports a version
    that is neither the library version nor version-like, [find_port]
    returns nothing, prints nothing, and has closed every stream it opened;
    [Arduino()] then raises [ValueError("Could not find port.")]. *)
Theorem find_port_passes_over_all (cs : list (option Serial)) (w : Scan) :
  forallb passed_over cs = true ->
  find_port cs w =
    (Return None, mkScan (scan_console w) (scan_closed w ++ closed_streams cs)%list) /\
  fst (init_auto cs w) = Raise (ValueError "Could not find port.").
Proof.
  intros H.
  assert (F : find_port cs w =
    (Return None, mkScan (scan_console w) (scan_closed w ++ closed_streams cs)%list)).
  { rewrite <- (app_nil_r cs) at 1. now rewrite (find_port_skip cs [] w H). }
  split; [exact F|]. unfold init_auto. now rewrite F.
Qed.

Lemma find_port_passes_over_all_witness :
  let wrong := answers ["boot" +:+ CRLF; "hello" +:+ CRLF] in
  find_port [None; Some wrong; Some idle] (mkScan [] []) =
    (Return None,
     mkScan [] [mkSerial [] [] [] ["@version%$!"]; mkSerial [] [] [] ["@version%$!"]]) /\
  fst (init_auto [] (mkScan [] [])) = Raise (ValueError "Could not find port.").
Proof.
  intros wrong.
  destruct (find_port_passes_over_all [None; Some wrong; Some idle] (mkScan [] []) eq_refl)
    as [A _].
  destruct (find_port_passes_over_all [] (mkScan [] []) eq_refl) as [_ B].
  split; [exact A | exact B].
Defined.

(** X27. [find_port] returns the first candidate whose version is accepted:
    after any number of candidates that are passed over, a candidate that
    reports the library version is returned silently and one that reports
    another version-like text is returned after the update notice.  The
    streams opened before it are closed, and the candidates after it are not
    touched. *)
Theorem find_port_first_accepted (pre post : list (option Serial)) (s s' : Serial)
    (v : string) (warn : bool) (w : Scan) :
  forallb passed_over pre = true ->
  probe s = (Return (Some v), s') ->
  verdict (Some v) = Some warn ->
  find_port (pre ++ Some s :: post) w =
    (Return (Some s'),
     mkScan (scan_console w ++ (if warn then version_warning v else []))%list
            (scan_closed w ++ closed_streams pre)%list) /\
  (warn = false <-> v = libraryVersion).
Proof.
  intros Hpre Hp Hv. split.
  - rewrite (find_port_skip pre _ w Hpre), find_port_step, Hp, Hv. reflexivity.
  - unfold verdict in Hv.
    destruct (String.eqb_spec v libraryVersion) as [->|N].
    + injection Hv as <-. tauto.
    + destruct (looks_like_version v); [|discriminate Hv].
      injection Hv as <-. split; [discriminate | contradiction].
Qed.

Lemma find_port_first_accepted_witness :
  let wrong := answers ["boot" +:+ CRLF; "hello" +:+ CRLF] in
  let old := answers ["boot" +:+ CRLF; "V0.5" +:+ CRLF; "x"] in
  find_port [Some wrong; None; Some old; Some idle] (mkScan [] []) =
    (Return (Some (mkSerial [RxBytes (BText "x")] [] [] ["@version%$!"])),
     mkScan (version_warning "V0.5") [mkSerial [] [] [] ["@version%$!"]]).
Proof.
  intros wrong old.
  exact (proj1 (find_port_first_accepted [Some wrong; None] [Some idle] old
                  (mkSerial [RxBytes (BText "x")] [] [] ["@version%$!"]) "V0.5" true
                  (mkScan [] []) eq_refl eq_refl eq_refl)).
Defined.

(** X28. A candidate whose stream raises while the scan reads from it ends
    the scan with that exception: [find_port] does not go on to the
    candidates that follow and does not close the stream. *)
Theorem find_port_read_error_aborts (pre post : list (option Serial)) (e : exn)
    (first : bytes) (l : list rx_event) (t : list string) (w : Scan) :
  forallb passed_over pre = true ->
  find_port (pre ++ Some (mkSerial (RxError e :: l) [] [] t) :: post) w =
    (Raise e, mkScan (scan_console w) (scan_closed w ++ closed_streams pre)%list) /\
  find_port (pre ++ Some (mkSerial (RxBytes first :: RxError e :: l) [] [] t) :: post) w =
    (Raise e, mkScan (scan_console w) (scan_closed w ++ closed_streams pre)%list).
Proof.
  intros Hpre.
  assert (G : forall s, fst (probe s) = Raise e ->
    find_port (pre ++ Some s :: post) w =
      (Raise e, mkScan (scan_console w) (scan_closed w ++ closed_streams pre)%list)).
  { intros s Hs. rewrite (find_port_skip pre _ w Hpre), find_port_step.
    destruct (probe s) as [r s']. cbn [fst] in Hs. now subst r. }
  split; apply G; reflexivity.
Qed.

Lemma find_port_read_error_aborts_witness :
  fst (find_port [None; Some (mkSerial [RxError SerialException] [] [] []);
                  Some (answers ["boot" +:+ CRLF; "V0.6" +:+ CRLF])] (mkScan [] [])) =
    Raise SerialException.
Proof.
  destruct (find_port_read_error_aborts [None]
              [Some (answers ["boot" +:+ CRLF; "V0.6" +:+ CRLF])]
              SerialException (BText "") [] [] (mkScan [] []) eq_refl) as [A _].
  exact (f_equal fst A).
Defined.

(** X29. Discovery is stricter than an explicit port.  A device whose answer
    differs from the library version and is not version-like is accepted
    without a word when its port is named, and is rejected and closed by
    [find_port], so that [Arduino()] on that single candidate fails to
    connect. *)
Theorem discovery_stricter_than_explicit_port (first : bytes) (raw : string)
    (rest : list rx_event) (sent : list string) (w : Scan) :
  let s := mkSerial (RxBytes first :: RxBytes (BText raw) :: rest) [] [] sent in
  verdict (Some (strip_crlf raw)) = None ->
  fst (Arduino.init_port (boot s)) = Return tt /\
  console (snd (Arduino.init_port (boot s))) = [] /\
  find_port [Some s] w =
    (Return None,
     mkScan (scan_console w)
            (scan_closed w ++ [mkSerial rest [] [] (sent ++ ["@version%$!"])])%list) /\
  fst (init_auto [Some s] w) = Raise (ValueError "Could not find port.").
Proof.
  intros s Hv.
  assert (F : find_port [Some s] w =
    (Return None,
     mkScan (scan_console w)
            (scan_closed w ++ [mkSerial rest [] [] (sent ++ ["@version%$!"])])%list)).
  { rewrite find_port_step.
    change (probe s) with
      (Return (Some (strip_crlf raw)), mkSerial rest [] [] (sent ++ ["@version%$!"])%list).
    cbv beta iota. now rewrite Hv. }
  assert (E : fst (Arduino.init_port (boot s)) = Return tt /\
              console (snd (Arduino.init_port (boot s))) = []).
  { unfold verdict in Hv. rewrite looks_like_version_spec in Hv.
    unfold s, Arduino.init_port, get_version, bind, try_except, boot.
    cbn -[String.eqb String.append libraryVersion].
    destruct (strip_crlf raw) as [|c r]; [split; reflexivity|].
    destruct (String.eqb (String c r) libraryVersion); [discriminate Hv|].
    cbn -[String.eqb String.append libraryVersion].
    destruct (String.eqb (String c "") "V" || String.eqb (String c r) "version");
      [discriminate Hv | split; reflexivity]. }
  destruct E as [E1 E2].
  split; [exact E1|]. split; [exact E2|]. split; [exact F|].
  unfold init_auto. now rewrite F.
Qed.

Lemma discovery_stricter_than_explicit_port_witness :
  let s := answers ["boot" +:+ CRLF; "hello" +:+ CRLF] in
  fst (Arduino.init_port (boot s)) = Return tt /\
  fst (init_auto [Some s] (mkScan [] [])) = Raise (ValueError "Could not find port.").
Proof.
  intros s.
  destruct (discovery_stricter_than_explicit_port (BText ("boot" +:+ CRLF)) ("hello" +:+ CRLF)
              [] [] (mkScan [] []) eq_refl) as (A & _ & _ & B).
  split; [exact A | exact B].
Defined.

(** *** Integer arguments can be told apart *)

(** The frame as the marker, the command, and the argument segment closed
    by the terminator. *)
Lemma build_cmd_str_shape (cmd : pyval) (args : list pyval) :
  build_cmd_str cmd (Some args) =
    String "@" (py_str cmd +:+
      String "%" (match args with
                  | [] => "$!"
                  | a :: rest =>
                      py_str a +:+ foldr (fun x acc => "%" +:+ py_str x +:+ acc) "$!" rest
                  end)).
Proof.
  destruct args as [|a rest]; [reflexivity|].
  cbv beta iota zeta delta [build_cmd_str].
  change (map py_str (a :: rest)) with (py_str a :: map py_str rest).
  rewrite str_join_cons.
  replace (foldr (fun q acc => "%" +:+ q +:+ acc) "$!" (map py_str rest))
    with (foldr (fun x acc => "%" +:+ py_str x +:+ acc) "$!" rest); [reflexivity|].
  induction rest as [|x rest IH]; [reflexivity|].
  cbn [map foldr]. now rewrite IH.
Qed.

Lemma str_of_Z_inj (a b : Z) : str_of_Z a = str_of_Z b -> a = b.
Proof.
  intros E.
  assert (A : py_int (str_of_Z a) = Some a)
    by (destruct a as [|p|p]; [reflexivity | exact (py_int_digits p false)
                                           | exact (py_int_digits p true)]).
  assert (B : py_int (str_of_Z b) = Some b)
    by (destruct b as [|p|p]; [reflexivity | exact (py_int_digits p false)
                                           | exact (py_int_digits p true)]).
  rewrite E in A. congruence.
Qed.

Lemma str_of_Z_nonempty (z : Z) : str_of_Z z <> "".
Proof.
  intros E.
  assert (A : py_int (str_of_Z z) = Some z)
    by (destruct z as [|p|p]; [reflexivity | exact (py_int_digits p false)
                                           | exact (py_int_digits p true)]).
  rewrite E in A. discriminate A.
Qed.

Lemma str_of_Z_numeric (z : Z) : str_all is_numeric (str_of_Z z) = true.
Proof.
  assert (D : forall d, str_all is_numeric (NilEmpty.string_of_uint d) = true)
    by (induction d; cbn; auto).
  destruct z as [|p|p]; [reflexivity | apply D | cbn; apply D].
Qed.

(** Two numeric texts followed by text that starts with another character
    are equal as soon as the concatenations are. *)
Lemma numeric_prefix_unique : forall a b ta tb,
  str_all is_numeric a = true -> str_all is_numeric b = true ->
  starts_numeric ta = false -> starts_numeric tb = false ->
  a +:+ ta = b +:+ tb -> a = b /\ ta = tb.
Proof.
  induction a as [|c a IH]; intros b ta tb Ha Hb Hta Htb E.
  - destruct b as [|d b]; [auto|].
    cbn [str_all] in Hb. apply andb_prop in Hb. destruct Hb as [Hd _].
    change ("" +:+ ta) with ta in E. subst ta.
    change (String d b +:+ tb) with (String d (b +:+ tb)) in Hta.
    cbn [starts_numeric] in Hta. congruence.
  - cbn [str_all] in Ha. apply andb_prop in Ha. destruct Ha as [Hc Ha].
    destruct b as [|d b].
    + change ("" +:+ tb) with tb in E. subst tb.
      change (String c a +:+ ta) with (String c (a +:+ ta)) in Htb.
      cbn [starts_numeric] in Htb. congruence.
    + cbn [str_all] in Hb. apply andb_prop in Hb. destruct Hb as [_ Hb].
      change (String c (a +:+ ta) = String d (b +:+ tb)) in E.
      injection E as -> E.
      destruct (IH b ta tb Ha Hb Hta Htb E) as [-> ->]. auto.
Qed.

Lemma int_args_tail_inj : forall l1 l2,
  foldr (fun x acc => "%" +:+ py_str x +:+ acc) "$!" (map PyInt l1) =
  foldr (fun x acc => "%" +:+ py_str x +:+ acc) "$!" (map PyInt l2) ->
  l1 = l2.
Proof.
  induction l1 as [|a l1 IH]; intros [|b l2] E; try reflexivity; try discriminate E.
  cbn [map foldr py_str] in E.
  change (String "%" (str_of_Z a +:+ foldr (fun x acc => "%" +:+ py_str x +:+ acc) "$!" (map PyInt l1)) =
          String "%" (str_of_Z b +:+ foldr (fun x acc => "%" +:+ py_str x +:+ acc) "$!" (map PyInt l2))) in E.
  injection E as E.
  apply numeric_prefix_unique in E; try apply str_of_Z_numeric.
  - destruct E as [Eab Et]. apply str_of_Z_inj in Eab. apply IH in Et. congruence.
  - destruct l1; reflexivity.
  - destruct l2; reflexivity.
Qed.

(** X30. Integer arguments are never confused: two frames of the same
    command built from lists of integers are equal only if the lists are
    equal, so the receiver can recover every integer argument list from its
    frame. *)
Theorem int_frames_injective (cmd : pyval) (l1 l2 : list Z) :
  build_cmd_str cmd (Some (map PyInt l1)) = build_cmd_str cmd (Some (map PyInt l2)) ->
  l1 = l2.
Proof.
  rewrite !build_cmd_str_shape.
  intros E. injection E as E.
  apply String.app_inj in E. injection E as E.
  destruct l1 as [|a l1], l2 as [|b l2]; cbn [map] in E; try reflexivity.
  - exfalso. cbn [py_str] in E.
    change ("$!") with ("" +:+ "$!") in E at 1.
    apply numeric_prefix_unique in E;
      [| reflexivity | apply str_of_Z_numeric | reflexivity | destruct l2; reflexivity].
    destruct E as [E _]. symmetry in E. now apply str_of_Z_nonempty in E.
  - exfalso. cbn [py_str] in E.
    change ("$!") with ("" +:+ "$!") in E at 2.
    apply numeric_prefix_unique in E;
      [| apply str_of_Z_numeric | reflexivity | destruct l1; reflexivity | reflexivity].
    destruct E as [E _]. now apply str_of_Z_nonempty in E.
  - cbn [py_str] in E.
    apply numeric_prefix_unique in E; try apply str_of_Z_numeric.
    + destruct E as [Eab Et]. apply str_of_Z_inj in Eab. apply int_args_tail_inj in Et.
      congruence.
    + destruct l1; reflexivity.
    + destruct l2; reflexivity.
Qed.

Lemma int_frames_injective_witness :
  build_cmd_str (PyStr "aw") (Some (map PyInt [9; 255])) = "@aw%9%255$!" /\
  [9; 255] = [9; 255].
Proof.
  split; [reflexivity|].
  exact (int_frames_injective (PyStr "aw") [9; 255] [9; 255] eq_refl).
Defined.
